(** * deCONZ gateway client (homeassistant/components/dcz)

    A shallow embedding of the gateway client of
    [homeassistant/components/dcz/__init__.py], of the classifier of
    [homeassistant/components/dcz/components.py], and of what the platforms
    [light/dcz.py] and [binary_sensor/dcz.py] add to a handle: the feature
    set of a light, the state that they show, the command that turns a
    light off.

    The client is a set of cooperating asyncio coroutines over shared
    dictionaries.  A coroutine is embedded as a resumption: a tree of
    atomic segments that read and write the shared [World], call out to the
    host, and suspend at every [yield from] that waits on the network, on a
    timer or on a future.  While a coroutine is suspended the other tasks of
    the event loop run; a [turn] of the script that drives a coroutine gives
    both the answer to the request and what the others did to the [World]
    in the meantime.

    JSON numbers are integers.  The keys of the registry and of the table
    of futures are strings, as the bridge sends them.  The two [while]
    loops take the number of iterations they may make as fuel. *)

From stdpp Require Import gmap strings list fin_maps pretty.
From Stdlib Require Import ZArith.

Set Warnings "-register-all".
Local Open Scope string_scope.

(** ** JSON values, with the Python operations the client applies to them *)

Inductive json : Type :=
| JNull
| JBool (b : bool)
| JNum (z : Z)
| JStr (s : string)
| JArr (l : list json)
| JObj (m : gmap string json).

(** The exceptions that the client and its libraries raise.  All of them
    are caught by [except Exception], as [CancelledError] is in the Python
    of [asyncio.coroutine]. *)
Inductive exn : Type :=
| AssertionError
| KeyError
| TypeError
| AttributeError
| ValueError
| UnboundLocalError
| InvalidStateError
| TimeoutError
| CancelledError
| ClientError
| ConnectionClosed.

#[global] Instance exn_ret : MRet (sum exn) := λ A, inr.
#[global] Instance exn_bind : MBind (sum exn) := λ A B f r,
  match r with
  | inl e => inl e
  | inr a => f a
  end.

(** [bool(v)] *)
Definition truthy (v : json) : bool :=
  match v with
  | JNull => false
  | JBool b => b
  | JNum z => negb (z =? 0)%Z
  | JStr s => negb (String.eqb s "")
  | JArr l => match l with [] => false | _ => true end
  | JObj m => match map_to_list m with [] => false | _ => true end
  end.

(** [v == s] for a string literal [s] *)
Definition is_str (s : string) (v : json) : bool :=
  match v with
  | JStr s' => String.eqb s' s
  | _ => false
  end.

(** [k in v] for a string literal [k]: key of a dict, substring of a string,
    element of a list; a [TypeError] on the other values. *)
Definition py_in (k : string) (v : json) : exn + bool :=
  match v with
  | JObj m => inr (match m !! k with Some _ => true | None => false end)
  | JStr s => inr (match String.index 0 k s with Some _ => true | None => false end)
  | JArr l => inr (existsb (is_str k) l)
  | _ => inl TypeError
  end.

(** [v[k]] for a string literal [k] *)
Definition py_getitem (v : json) (k : string) : exn + json :=
  match v with
  | JObj m => match m !! k with Some x => inr x | None => inl KeyError end
  | _ => inl TypeError
  end.

(** [v.get(k, default)] *)
Definition py_get (v : json) (k : string) (default : json) : exn + json :=
  match v with
  | JObj m => inr (match m !! k with Some x => x | None => default end)
  | _ => inl AttributeError
  end.

(** A JSON value used as the key of one of the client's dictionaries, all
    of whose keys are strings. *)
Inductive pykey : Type :=
| KeyStr (s : string)
| KeyScalar
| Unhashable.

Definition pykey_of (v : json) : pykey :=
  match v with
  | JStr s => KeyStr s
  | JArr _ | JObj _ => Unhashable
  | _ => KeyScalar
  end.

(** ** Configuration, after [CONFIG_SCHEMA] *)

Record Config : Type := mkConfig {
  CONF_HOST : string;
  CONF_PORT : Z;
  CONF_API_KEY : string;
  (** [device_config]: uniqueid to entry; an entry has an optional [type] *)
  CONF_DEVICE_CONFIG : option (gmap string (option string))
}.

Definition DOMAIN : string := "dcz".

(** ** Handles and the shared state of the client *)

Module Entity.
Record t : Type := mk {
  dclass : string;
  id : string;
  uid : json;
  _device : json;
  _state : json
}.

Definition set_state (s : json) (e : t) : t :=
  mk (dclass e) (id e) (uid e) (_device e) s.
End Entity.

(** A future of the event loop. *)
Inductive future : Type :=
| Pending
| Result (obj : nat)
| Cancelled.

(** The mutable fields of [DeCONZApi] and the objects they refer to.  A
    handle is the index of its [Entity.t] in [entities]; a future the index
    of its state in [futures].  In [_devices] the value [None] is the
    placeholder stored before a handle exists.  The field [_config] is
    assigned once, in [__init__]: the methods that read it take it as
    their first argument. *)
Record World : Type := mkWorld {
  _devices : gmap string (gmap string (option nat));
  _futures : gmap string nat;
  _dying : bool;
  entities : list Entity.t;
  futures : list future
}.

Definition set_devices (f : gmap string (gmap string (option nat)) →
                            gmap string (gmap string (option nat)))
    (w : World) : World :=
  mkWorld (f (_devices w)) (_futures w) (_dying w)
          (entities w) (futures w).

Definition set_futures (f : gmap string nat → gmap string nat)
    (w : World) : World :=
  mkWorld (_devices w) (f (_futures w)) (_dying w)
          (entities w) (futures w).

Definition set_entities (f : list Entity.t → list Entity.t)
    (w : World) : World :=
  mkWorld (_devices w) (_futures w) (_dying w)
          (f (entities w)) (futures w).

Definition set_future_heap (f : list future → list future)
    (w : World) : World :=
  mkWorld (_devices w) (_futures w) (_dying w)
          (entities w) (f (futures w)).

(** The three states of a registry entry. *)
Inductive entry : Type :=
| Absent
| Placeholder
| Live (obj : nat).

Definition lookup_entry (w : World) (dclass device_id : string) : entry :=
  match _devices w !! dclass with
  | None => Absent
  | Some inner =>
      match inner !! device_id with
      | None => Absent
      | Some None => Placeholder
      | Some (Some obj) => Live obj
      end
  end.

(** ** Requests, answers and observable effects *)

Inductive verb : Type := GET | PUT | POST.

(** What a coroutine waits for at a [yield from].  A wait that the code
    bounds carries its bound. *)
Inductive request : Type :=
(* [action(url, json=data)], inside [timeout(10)] *)
| Action (a : verb) (url : string) (data : option json) (timeout : Z)
(* [response.text()], inside [timeout(10)] *)
| ResponseText (timeout : Z)
(* [response.json()] *)
| ResponseJson
(* [response.release()] *)
| ResponseRelease
(* [asyncio.wait_for(fut, timeout)] on the future [f] *)
| WaitFor (f : nat) (timeout : Z)
(* [websockets.connect('ws://{}:{}'.format(host, port))] *)
| Connect (host : string) (port : json)
(* [asyncio.wait_for(socket.recv(), timeout=20)] *)
| Recv (socket : nat) (timeout : Z)
(* [socket.ping()] *)
| Ping (socket : nat)
(* [asyncio.wait_for(pong, timeout=10)] *)
| WaitPong (timeout : Z)
(* [socket.close()] *)
| Close (socket : nat).

(** What it is resumed with. *)
Inductive response : Type :=
(* the wait is over and there is no value to hand back *)
| Resumed
(* a response object, with its [status] *)
| HttpResponse (status : Z)
| Text (body : string)
| Body (decoded : json)
| Socket (s : nat)
(* a frame, with what [json.loads] makes of it: [None] when it raises *)
| Frame (raw : string) (decoded : option json)
(* the exception [e], raised at the suspension point *)
| Raises (e : exn).

Inductive level : Type := DEBUG | INFO | WARNING | ERROR.

(** What a coroutine does that the rest of the process can see. *)
Inductive obs : Type :=
(* [_LOGGER.<level>(msg, ...)], by its format string *)
| Log (l : level) (msg : string)
(* the coroutine suspended on [rq] and was resumed *)
| Awaited (rq : request)
(* [hass.async_add_job(discovery.async_load_platform(hass, comp, DOMAIN,
   discovery_info, config))] *)
| AddJob (comp : string) (domain : string)
         (discovery_info : string * string * json)
(* [asyncio.ensure_future(self._ws_handle_message(data))] *)
| EnsureFuture (data : json)
(* [asyncio.sleep(seconds)] as a bare statement: the coroutine object is
   created and dropped, the caller does not suspend *)
| SleepNotAwaited (seconds : Z)
(* [self.schedule_update_ha_state()] *)
| ScheduleUpdate (obj : nat).

(** Where the embedding stops: a loop out of fuel, a value that Python
    accepts and the embedding does not (a key of the registry that is not
    a string), an answer of the wrong shape for its request, a handle or
    future that was never created. *)
Inductive halt : Type :=
| NoFuel
| Unmodelled
| BadScript
| Dangling.

(** ** Coroutines as resumptions *)

Inductive prog (R : Type) : Type :=
| Ret (r : R)
| Raise (e : exn)
| Halt (why : halt)
| GetWorld (k : World → prog R)
| SetWorld (w : World) (k : prog R)
| Emit (o : obs) (k : prog R)
| Await (rq : request) (k : response → prog R).

Arguments Ret {R} r.
Arguments Raise {R} e.
Arguments Halt {R} why.
Arguments GetWorld {R} k.
Arguments SetWorld {R} w k.
Arguments Emit {R} o k.
Arguments Await {R} rq k.

Fixpoint bind {A B : Type} (p : prog A) (f : A → prog B) : prog B :=
  match p with
  | Ret r => f r
  | Raise e => Raise e
  | Halt why => Halt why
  | GetWorld k => GetWorld (λ w, bind (k w) f)
  | SetWorld w k => SetWorld w (bind k f)
  | Emit o k => Emit o (bind k f)
  | Await rq k => Await rq (λ r, bind (k r) f)
  end.

#[global] Instance prog_ret : MRet prog := @Ret.
#[global] Instance prog_bind : MBind prog := λ A B f p, bind p f.

Definition read : prog World := GetWorld Ret.
Definition modify (f : World → World) : prog unit :=
  GetWorld (λ w, SetWorld (f w) (Ret tt)).
Definition emit (o : obs) : prog unit := Emit o (Ret tt).
Definition log (l : level) (msg : string) : prog unit := emit (Log l msg).

(** [yield from rq]: an answer [Raises e] is the exception [e] raised at
    the suspension point. *)
Definition await (rq : request) : prog response :=
  Await rq (λ r, match r with Raises e => Raise e | _ => Ret r end).

Definition pure {A : Type} (r : exn + A) : prog A :=
  match r with
  | inl e => Raise e
  | inr a => Ret a
  end.

(** [try: p  except: h]; [h e = None] when no clause matches [e]. *)
Fixpoint try_except {R : Type} (p : prog R) (h : exn → option (prog R))
    : prog R :=
  match p with
  | Ret r => Ret r
  | Raise e => match h e with Some q => q | None => Raise e end
  | Halt why => Halt why
  | GetWorld k => GetWorld (λ w, try_except (k w) h)
  | SetWorld w k => SetWorld w (try_except k h)
  | Emit o k => Emit o (try_except k h)
  | Await rq k => Await rq (λ r, try_except (k r) h)
  end.

(** [try: p  finally: fin] *)
Fixpoint try_finally {R : Type} (p : prog R) (fin : prog unit) : prog R :=
  match p with
  | Ret r => bind fin (λ _, Ret r)
  | Raise e => bind fin (λ _, Raise e)
  | Halt why => Halt why
  | GetWorld k => GetWorld (λ w, try_finally (k w) fin)
  | SetWorld w k => SetWorld w (try_finally k fin)
  | Emit o k => Emit o (try_finally k fin)
  | Await rq k => Await rq (λ r, try_finally (k r) fin)
  end.

(** ** Running a coroutine against a script *)

Record turn : Type := mkTurn {
  answer : response;
  others : World → World
}.

(** A turn in which no other task touches the shared state. *)
Definition quiet (r : response) : turn := mkTurn r (λ w, w).

Inductive status (R : Type) : Type :=
| Returned (r : R)
| Raised (e : exn)
| Halted (why : halt)
| Blocked (rq : request) (k : response → prog R).

Arguments Returned {R} r.
Arguments Raised {R} e.
Arguments Halted {R} why.
Arguments Blocked {R} rq k.

Record outcome (R : Type) : Type := mkOutcome {
  out_trace : list obs;
  out_world : World;
  out_status : status R;
  out_rest : list turn
}.

Arguments mkOutcome {R} _ _ _ _.
Arguments out_trace {R} _.
Arguments out_world {R} _.
Arguments out_status {R} _.
Arguments out_rest {R} _.

Definition observe {R : Type} (tr : list obs) (o : outcome R) : outcome R :=
  mkOutcome (tr ++ out_trace o) (out_world o) (out_status o) (out_rest o).

Fixpoint run {R : Type} (p : prog R) (w : World) (script : list turn)
    : outcome R :=
  match p with
  | Ret r => mkOutcome [] w (Returned r) script
  | Raise e => mkOutcome [] w (Raised e) script
  | Halt why => mkOutcome [] w (Halted why) script
  | GetWorld k => run (k w) w script
  | SetWorld w' k => run k w' script
  | Emit o k => observe [o] (run k w script)
  | Await rq k =>
      match script with
      | [] => mkOutcome [] w (Blocked rq k) []
      | t :: script' =>
          observe [Awaited rq] (run (k (answer t)) (others t w) script')
      end
  end.

(** A segment that does not suspend, as the others see it. *)
Definition atomically {R : Type} (p : prog R) : World → World :=
  λ w, out_world (run p w []).

(** ** components.py *)

Definition LIGHT_TYPES : list string :=
  ["Extended color light"; "Color light"; "Dimmable light";
   "Color temperature light"].

(** [if comp:] for the component type that [component] returns. *)
Definition classified (comp : option string) : bool :=
  match comp with
  | Some c => negb (String.eqb c "")
  | None => false
  end.

(** [component(config, dclass, device)]; the result [None] is Python's. *)
Definition component (config : Config) (dclass : string) (device : json)
    : exn + option string :=
  (* Config has precedence *)
  from_config ←
    match CONF_DEVICE_CONFIG config with
    | None => inr None
    | Some device_config =>
        has_uid ← py_in "uniqueid" device;
        if has_uid : bool then
          uniqueid ← py_getitem device "uniqueid";
          match pykey_of uniqueid with
          | Unhashable => inl TypeError
          | KeyScalar => inr None
          | KeyStr u =>
              inr (match device_config !! u with
                   | Some (Some type) => Some type
                   | _ => None
                   end)
          end
        else inr None
    end;
  match from_config with
  | Some type => inr (Some type)
  | None =>
      if String.eqb dclass "sensors" then
        has_model ← py_in "modelid" device;
        if has_model : bool then
          modelid ← py_getitem device "modelid";
          if is_str "lumi.sensor_magnet" modelid
          then inr (Some "binary_sensor") else inr None
        else inr None
      else if String.eqb dclass "lights" then
        has_type ← py_in "type" device;
        by_type ←
          (if has_type : bool then
             type ← py_getitem device "type";
             inr (existsb (λ s, is_str s type) LIGHT_TYPES)
           else inr false);
        if by_type : bool then inr (Some "light") else
        has_model ← py_in "modelid" device;
        if has_model : bool then
          modelid ← py_getitem device "modelid";
          match modelid with
          | JStr s =>
              if String.prefix "TRADFRI bulb" s
              then inr (Some "light") else inr None
          | _ => inl AttributeError
          end
        else inr None
      else inr None
  end.

(** ** DeCONZApi: the registry *)

Definition assert (b : bool) : prog unit :=
  if b then Ret tt else Raise AssertionError.

(** The object behind a handle. *)
Definition deref (obj : nat) : prog Entity.t :=
  w ← read;
  match entities w !! obj with
  | Some e => Ret e
  | None => Halt Dangling
  end.

(** [self._devices[dclass][device_id] = v] *)
Definition devices_setitem (dclass device_id : string) (v : option nat)
    : prog unit :=
  w ← read;
  match _devices w !! dclass with
  | None => Raise KeyError
  | Some inner =>
      modify (set_devices (<[dclass := <[device_id := v]> inner]>))
  end.

(** [if dclass not in self._devices: self._devices[dclass] = {}] *)
Definition devices_setdefault (dclass : string) : prog unit :=
  w ← read;
  match _devices w !! dclass with
  | None => modify (set_devices (<[dclass := ∅]>))
  | Some _ => Ret tt
  end.

(** [self._hass.loop.create_future()] *)
Definition create_future : prog nat :=
  w ← read;
  modify (set_future_heap (λ h, (h ++ [Pending])%list));;
  Ret (length (futures w)).

(** [fut.set_result(obj)] *)
Definition set_result (f : nat) (obj : nat) : prog unit :=
  w ← read;
  match futures w !! f with
  | Some Pending => modify (set_future_heap (<[f := Result obj]>))
  | Some _ => Raise InvalidStateError
  | None => Halt Dangling
  end.

Definition register_device (dclass : string) (obj : nat) : prog unit :=
  assert (negb (String.eqb dclass ""));;
  (* [assert obj]: a handle is an object without [__bool__] or [__len__] *)
  e ← deref obj;
  devices_setdefault dclass;;
  w ← read;
  match lookup_entry w dclass (Entity.id e) with
  | Live _ => log WARNING "Duplicate init"
  | _ =>
      devices_setitem dclass (Entity.id e) (Some obj);;
      log DEBUG "Stored device: [%s][%s]";;
      match pykey_of (Entity.uid e) with
      | Unhashable => Raise TypeError
      | KeyScalar => Ret tt
      | KeyStr uid =>
          w ← read;
          match _futures w !! uid with
          | None => Ret tt
          | Some f =>
              set_result f obj;;
              modify (set_futures (delete uid))
          end
      end
  end.

Definition unregister_device (dclass : string) (obj : nat) : prog unit :=
  assert (negb (String.eqb dclass ""));;
  e ← deref obj;
  w ← read;
  match _devices w !! dclass with
  | None => Raise KeyError
  | Some inner =>
      match inner !! Entity.id e with
      | None => Raise KeyError
      | Some _ =>
          modify (set_devices (<[dclass := delete (Entity.id e) inner]>))
      end
  end.

(** ** DeCONZApi: the REST layer *)

Definition _http_address (config : Config) (node : string) : string :=
  "http://" +:+ CONF_HOST config +:+ ":" +:+ pretty (CONF_PORT config)
  +:+ "/api/" +:+ CONF_API_KEY config +:+ "/" +:+ node.

(** A [yield from] whose answer has a known shape. *)
Definition expect {A : Type} (rq : request) (shape : response → option A)
    : prog A :=
  r ← await rq;
  match shape r with
  | Some a => Ret a
  | None => Halt BadScript
  end.

Definition a_status (r : response) : option Z :=
  match r with HttpResponse s => Some s | _ => None end.
Definition a_text (r : response) : option string :=
  match r with Text s => Some s | _ => None end.
Definition a_body (r : response) : option json :=
  match r with Body v => Some v | _ => None end.
Definition a_resumed (r : response) : option unit :=
  match r with Resumed => Some tt | _ => None end.
Definition a_socket (r : response) : option nat :=
  match r with Socket s => Some s | _ => None end.
Definition a_frame (r : response) : option (string * option json) :=
  match r with Frame raw d => Some (raw, d) | _ => None end.

(** The result of [p], or the exception that it raised. *)
Definition attempt {A : Type} (p : prog A) : prog (exn + A) :=
  try_except (a ← p; Ret (inr a)) (λ e, Some (Ret (inl e))).

(** The two [except] clauses of [_req]. *)
Definition _req_except (e : exn) : option (prog json) :=
  match e with
  | TimeoutError =>
      Some (log ERROR "Timeout getting deCONZ data from %s.";;
            Ret (JBool false))
  | ClientError =>
      Some (log ERROR "Error getting deCONZ data from %s.";;
            Ret (JBool false))
  | _ => None
  end.

(** [_req(action, node, data)].  The local [response] is [None] until
    [action] has returned, so the [finally] clause releases the response
    exactly when the first [yield from] did not raise. *)
Definition _req (config : Config) (action : verb) (node : string)
    (data : option json) : prog json :=
  let url := _http_address config node in
  response ← attempt (expect (Action action url data 10) a_status);
  match response with
  | inl e => try_except (Raise e) _req_except
  | inr status =>
      try_finally
        (try_except
           (if bool_decide (status ≠ 200%Z) then
              _ ← expect (ResponseText 10) a_text;
              log ERROR "deCONZ returned http status %d, response %s";;
              Ret (JBool false)
            else
              expect ResponseJson a_body)
           _req_except)
        (expect ResponseRelease a_resumed)
  end.

Definition get (config : Config) (node : string) : prog json :=
  _req config GET node None.
Definition put (config : Config) (node : string) (data : json) : prog json :=
  _req config PUT node (Some data).
Definition post (config : Config) (node : string) (data : json)
    : prog json :=
  _req config POST node (Some data).

Definition permit (config : Config) (duration : Z) : prog unit :=
  put config "config" (JObj {[ "permitjoin" := JNum duration ]});; Ret tt.

Definition otau (config : Config) (enable : bool) : prog unit :=
  put config "config" (JObj {[ "otauactive" := JBool enable ]});; Ret tt.

(** ** Entity *)

(** [Entity.__init__(hass, config, dclass, device_id, device)]; the new
    handle is returned. *)
Definition Entity_init (dclass device_id : string) (device : json)
    : prog nat :=
  uid ← pure (py_get device "uniqueid" JNull);
  has_state ← pure (py_in "state" device);
  state ← (if has_state : bool then pure (py_getitem device "state")
           else Ret (JObj ∅));
  w ← read;
  let self := length (entities w) in
  modify (set_entities
            (λ h, (h ++ [Entity.mk dclass device_id uid device state])%list));;
  register_device dclass self;;
  Ret self.

(** [self._state[k] = v] *)
Definition state_setitem (self : nat) (k : string) (v : json) : prog unit :=
  e ← deref self;
  match Entity._state e with
  | JObj m =>
      modify (set_entities
                (<[self := Entity.set_state (JObj (<[k := v]> m)) e]>))
  | _ => Raise TypeError
  end.

(** [self._state.update(other)].  Python also accepts a sequence of pairs;
    of those only the empty ones are embedded. *)
Definition state_update (self : nat) (other : json) : prog unit :=
  e ← deref self;
  match Entity._state e with
  | JObj m =>
      match other with
      | JObj m' =>
          modify (set_entities
                    (<[self := Entity.set_state (JObj (m' ∪ m)) e]>))
      | JStr s => if String.eqb s "" then Ret tt else Raise ValueError
      | JArr [] => Ret tt
      | JArr _ => Halt Unmodelled
      | _ => Raise TypeError
      end
  | _ => Raise AttributeError
  end.

Definition handle_message (self : nat) (message : json) : prog unit :=
  log DEBUG "Default message handler.";;
  has_config ← pure (py_in "config" message);
  (if has_config : bool then
     config ← pure (py_getitem message "config");
     has_battery ← pure (py_in "battery" config);
     if has_battery : bool then
       battery ← pure (py_getitem config "battery");
       state_setitem self "battery_level" battery
     else Ret tt
   else
     has_e ← pure (py_in "e" message);
     if has_e : bool then
       e ← pure (py_getitem message "e");
       if is_str "changed" e then
         log DEBUG "Updating state.";;
         state ← pure (py_getitem message "state");
         state_update self state
       else Ret tt
     else Ret tt);;
  emit (ScheduleUpdate self).

(** ** DeCONZApi: discovery and event routing *)

(** What [_find_unknown_device] returns and what the router holds in
    [device]: [None], [False] or a handle. *)
Inductive found : Type :=
| PyNone
| PyFalse
| Handle (obj : nat).

(** [asyncio.wait_for(fut, timeout)]: the task is resumed when the future
    is done or when the timer fires; a future that is still pending then is
    cancelled and [TimeoutError] raised. *)
Definition wait_for (f : nat) (timeout : Z) : prog nat :=
  expect (WaitFor f timeout) a_resumed;;
  w ← read;
  match futures w !! f with
  | Some (Result obj) => Ret obj
  | Some Cancelled => Raise CancelledError
  | Some Pending =>
      modify (set_future_heap (<[f := Cancelled]>));;
      Raise TimeoutError
  | None => Halt Dangling
  end.

(** [if uid not in self._futures:] create the slot and start the platform
    setup. *)
Definition open_slot (comp uid device_id : string) (device : json)
    : prog unit :=
  w ← read;
  match _futures w !! uid with
  | Some _ => Ret tt
  | None =>
      future ← create_future;
      modify (set_futures (<[uid := future]>));;
      emit (AddJob comp DOMAIN ("sensors", device_id, device))
  end.

(** The second half of [_find_unknown_device], from the classification of
    the fetched record on. *)
Definition classify_and_wait (config : Config) (dclass device_id : string)
    (device : json) : prog found :=
  comp ← pure (component config dclass device);
  if classified comp then
    uniqueid ← pure (py_getitem device "uniqueid");
    match pykey_of uniqueid with
    | Unhashable => Raise TypeError
    | KeyScalar => Halt Unmodelled
    | KeyStr uid =>
        open_slot (default "" comp) uid device_id device;;
        w ← read;
        match _futures w !! uid with
        | None => Raise KeyError
        | Some f =>
            try_except (obj ← wait_for f 10; Ret (Handle obj))
              (λ e, match e with
                    | TimeoutError => Some (Ret PyFalse)
                    | _ => None
                    end)
        end
    end
  else Ret PyFalse.

Definition _find_unknown_device (config : Config) (dclass device_id : string)
    : prog found :=
  log DEBUG "Finding unknown device: [%s][%s]";;
  if String.eqb dclass "" || String.eqb device_id "" then Ret PyNone else
  devices_setdefault dclass;;
  devices_setitem dclass device_id None;;
  device ← get config (dclass +:+ "/" +:+ device_id);
  classify_and_wait config dclass device_id device.

(** The key that a frame carries under ['r'] or ['id'], as a string. *)
Definition str_key (v : json) : prog string :=
  match v with
  | JStr s => Ret s
  | _ => Halt Unmodelled
  end.

Definition _ws_handle_message (config : Config) (message : json)
    : prog unit :=
  try_except
    (has_r ← pure (py_in "r" message);
     if negb has_r then log WARNING "Message without dclass: %s" else
     r ← pure (py_getitem message "r");
     has_id ← pure (py_in "id" message);
     if negb has_id then log WARNING "Message without destination: %s" else
     i ← pure (py_getitem message "id");
     dclass ← str_key r;
     device_id ← str_key i;
     log DEBUG "Finding device: [%s][%s]";;
     w ← read;
     device ←
       match lookup_entry w dclass device_id with
       | Live obj => Ret (Handle obj)
       | Placeholder => Ret PyNone
       | Absent => _find_unknown_device config dclass device_id
       end;
     match device with
     | Handle obj => handle_message obj message
     | _ => log INFO "Unable to determine device: (%s : %s)."
     end)
    (λ e, Some (log ERROR "Handle message exception: %s")).

(** ** DeCONZApi: the websocket listener *)

Inductive control : Type := Continue | Break.

Inductive received : Type :=
| Got (raw : string) (decoded : option json)
| Loop (c : control).

(** The inner [while True:] on an open socket; it returns at [break]. *)
Fixpoint recv_loop (fuel : nat) (socket : nat) : prog unit :=
  match fuel with
  | O => Halt NoFuel
  | S fuel =>
      step ←
        try_except
          ('(raw, decoded) ← expect (Recv socket 20) a_frame;
           Ret (Got raw decoded))
          (λ e, match e with
                | TimeoutError =>
                    Some (try_except
                            (expect (Ping socket) a_resumed;;
                             expect (WaitPong 10) a_resumed;;
                             Ret (Loop Continue))
                            (λ e', match e' with
                                   | TimeoutError => Some (Ret (Loop Break))
                                   | _ => None
                                   end))
                | _ => None
                end);
      match step with
      | Loop Break => Ret tt
      | Loop Continue => recv_loop fuel socket
      | Got raw decoded =>
          if String.eqb raw "" then
            log WARNING "Invalid data received.";;
            recv_loop fuel socket
          else
            match decoded with
            | None => Raise ValueError
            | Some data =>
                log DEBUG "Got websocket message: %s";;
                if negb (truthy data) then
                  log WARNING "Invalid json data received.";;
                  recv_loop fuel socket
                else
                  emit (EnsureFuture data);;
                  recv_loop fuel socket
            end
      end
  end.

(** The [except] clauses of the outer loop. *)
Definition _ws_listener_except (e : exn) : option (prog control) :=
  match e with
  | CancelledError => Some (Ret Break)
  | _ =>
      Some (log WARNING "Websocket exception: %s";;
            log WARNING "Websocket exception.Sleeping 5s and retrying.";;
            emit (SleepNotAwaited 5);;
            Ret Continue)
  end.

(** [finally: yield from socket.close()], for the local [socket], which is
    unbound until a first [websockets.connect] has returned. *)
Definition _ws_listener_finally (socket : option nat) : prog unit :=
  match socket with
  | None => Raise UnboundLocalError
  | Some s => expect (Close s) a_resumed
  end.

(** The outer [while not self._dying:]. *)
Fixpoint connect_loop (fuel : nat) (host : string) (ws_port : json)
    (socket : option nat) : prog unit :=
  match fuel with
  | O => Halt NoFuel
  | S fuel =>
      w ← read;
      if _dying w then Ret tt else
      connected ← attempt (expect (Connect host ws_port) a_socket);
      let socket' := match connected with
                     | inr s => Some s
                     | inl _ => socket
                     end in
      c ← try_finally
            (try_except
               (match connected with
                | inr s => recv_loop fuel s
                | inl e => Raise e
                end;;
                Ret Continue)
               _ws_listener_except)
            (_ws_listener_finally socket');
      match c with
      | Break => Ret tt
      | Continue => connect_loop fuel host ws_port socket'
      end
  end.

Definition _ws_listener (config : Config) (fuel : nat) : prog unit :=
  conf ← get config "config";
  ws_port ← (if truthy conf then pure (py_get conf "websocketport" (JNum 443))
             else Ret (JNum 443));
  log INFO "Connecting to websocket on: %s";;
  connect_loop fuel (CONF_HOST config) ws_port None.

(** ** DeCONZApi: the refresh loop *)

(** [devices.items()] *)
Definition py_items (v : json) : exn + list (string * json) :=
  match v with
  | JObj m => inr (map_to_list m)
  | _ => inl AttributeError
  end.

Fixpoint for_each {A : Type} (l : list A) (body : A → prog unit)
    : prog unit :=
  match l with
  | [] => Ret tt
  | x :: l => body x;; for_each l body
  end.

(** The body of [for device_id, device in devices.items():] *)
Definition refresh_device (config : Config) (dclass : string)
    (item : string * json) : prog unit :=
  let '(device_id, device) := item in
  w ← read;
  match _devices w !! dclass with
  | None => Raise KeyError
  | Some inner =>
      match inner !! device_id with
      | Some _ => Ret tt
      | None =>
          devices_setitem dclass device_id None;;
          comp ← pure (component config dclass device);
          if classified comp then
            emit (AddJob (default "" comp) DOMAIN (dclass, device_id, device))
          else Ret tt
      end
  end.

(** The body of [for dclass in ['sensors', 'lights']:] *)
Definition refresh_dclass (config : Config) (dclass : string) : prog unit :=
  devices_setdefault dclass;;
  devices ← get config dclass;
  items ← pure (py_items devices);
  for_each items (refresh_device config dclass).

(** One pass of the body of [while True:] *)
Definition refresh_once (config : Config) : prog unit :=
  for_each ["sensors"; "lights"] (refresh_dclass config);;
  emit (SleepNotAwaited 5).

Fixpoint refresher_task (fuel : nat) (config : Config) : prog unit :=
  match fuel with
  | O => Halt NoFuel
  | S fuel => refresh_once config;; refresher_task fuel config
  end.


(** ** Outcomes of composed coroutines *)

(** The outcome of [p ≫= f], from the outcome of [p]. *)
Definition then_run {A B : Type} (o : outcome A) (f : A → prog B)
    : outcome B :=
  match out_status o with
  | Returned r => observe (out_trace o) (run (f r) (out_world o) (out_rest o))
  | Raised e => mkOutcome (out_trace o) (out_world o) (Raised e) (out_rest o)
  | Halted why =>
      mkOutcome (out_trace o) (out_world o) (Halted why) (out_rest o)
  | Blocked rq k =>
      mkOutcome (out_trace o) (out_world o)
                (Blocked rq (λ r, bind (k r) f)) (out_rest o)
  end.

(** The outcome of [try: p except: h], from the outcome of [p]. *)
Definition then_catch {R : Type} (o : outcome R) (h : exn → option (prog R))
    : outcome R :=
  match out_status o with
  | Raised e =>
      match h e with
      | Some q => observe (out_trace o) (run q (out_world o) (out_rest o))
      | None => o
      end
  | Blocked rq k =>
      mkOutcome (out_trace o) (out_world o)
                (Blocked rq (λ r, try_except (k r) h)) (out_rest o)
  | _ => o
  end.

(** ** Invariants of the shared state *)

(** Every write of [p], started in [w], establishes [P], whatever the
    answers are and whatever the others do between two segments, as long
    as they keep [P] themselves. *)
Fixpoint keeps {R : Type} (P : World → Prop) (p : prog R) (w : World)
    : Prop :=
  match p with
  | Ret _ | Raise _ | Halt _ => True
  | GetWorld k => keeps P (k w) w
  | SetWorld w' k => P w' ∧ keeps P k w'
  | Emit _ k => keeps P k w
  | Await _ k => ∀ r w', P w' → keeps P (k r) w'
  end.

Definition entry_is (dclass device_id : string) (v : entry) : World → Prop :=
  λ w, lookup_entry w dclass device_id = v.

(** The others keep [P] at every turn of the script. *)
Definition others_keep (P : World → Prop) (script : list turn) : Prop :=
  Forall (λ t, ∀ w, P w → P (others t w)) script.

(** What the router does with the result of a discovery. *)
Definition deliver (message : json) (device : found) : prog unit :=
  match device with
  | Handle obj => handle_message obj message
  | _ => log INFO "Unable to determine device: (%s : %s)."
  end.

Definition router_except (e : exn) : option (prog unit) :=
  Some (log ERROR "Handle message exception: %s").

(** The shared state once [_find_unknown_device] has stored its
    placeholder, before it fetches the record. *)
Definition placeholder_stored (dclass device_id : string) : World → World :=
  atomically (devices_setdefault dclass;;
              devices_setitem dclass device_id None).

(** ** Segments of a registration and of a discovery *)

(** The shared state once [register_device] has stored the handle. *)
Definition handle_stored (dclass device_id : string) (obj : nat)
    : World → World :=
  atomically (devices_setdefault dclass;;
              devices_setitem dclass device_id (Some obj)).

(** The end of [register_device]: the rendezvous with a discovery. *)
Definition resolve_slot (e : Entity.t) (obj : nat) : prog unit :=
  match pykey_of (Entity.uid e) with
  | Unhashable => Raise TypeError
  | KeyScalar => Ret tt
  | KeyStr uid =>
      w ← read;
      match _futures w !! uid with
      | None => Ret tt
      | Some f =>
          set_result f obj;;
          modify (set_futures (delete uid))
      end
  end.


(** The wait at the end of [_find_unknown_device]. *)
Definition wait_for_setup (f : nat) : prog found :=
  try_except (obj ← wait_for f 10; Ret (Handle obj))
    (λ e, match e with
          | TimeoutError => Some (Ret PyFalse)
          | _ => None
          end).

(** What a discovery has logged and awaited when its record is fetched. *)
Definition fetch_trace (config : Config) (dclass device_id : string)
    : list obs :=
  [Log DEBUG "Finding unknown device: [%s][%s]";
   Awaited (Action GET (_http_address config (dclass +:+ "/" +:+ device_id))
                   None 10);
   Awaited ResponseJson; Awaited ResponseRelease].

(** ** Frames on the websocket *)

(** A frame passes both tests of the inner loop: [if not raw] and
    [if not data]. *)
Definition well_formed (f : string * json) : bool :=
  negb (String.eqb f.1 "") && truthy f.2.

(** Frames that arrive while no other task runs, each with what
    [json.loads] makes of it. *)
Definition frames (l : list (string * json)) : list turn :=
  map (λ f, quiet (Frame f.1 (Some f.2))) l.

(** What the inner loop does for a frame that passes. *)
Definition dispatched (socket : nat) (f : string * json) : list obs :=
  [Awaited (Recv socket 20); Log DEBUG "Got websocket message: %s";
   EnsureFuture f.2].

(** [kill], as the listener sees it: [self._dying = True] is written and
    [self._ws_task.cancel()] raises [CancelledError] where the listener is
    suspended. *)
Definition dying (w : World) : World :=
  mkWorld (_devices w) (_futures w) true (entities w) (futures w).

Definition killed : turn := mkTurn (Raises CancelledError) dying.

(** ** A pass of the refresh loop *)


(** ** Entity: commands *)

(** [Entity._async_put_state(data, endpoint)] *)
Definition _async_put_state (config : Config) (self : nat) (data : json)
    (endpoint : string) : prog unit :=
  log DEBUG "Setting state: %s";;
  e ← deref self;
  res ← put config (Entity.dclass e +:+ "/" +:+ Entity.id e +:+ endpoint) data;
  if truthy res then emit (ScheduleUpdate self) else Ret tt.

(** ** light/dcz.py and binary_sensor/dcz.py *)

(** What [light/dcz.py] imports from [homeassistant.components.light]:
    the name of the light domain and the feature bits.  Nothing below
    depends on their values. *)
Class LightImports : Type := {
  light_DOMAIN : string;
  SUPPORT_BRIGHTNESS : Z;
  SUPPORT_COLOR_TEMP : Z;
  SUPPORT_EFFECT : Z;
  SUPPORT_FLASH : Z;
  SUPPORT_RGB_COLOR : Z;
  SUPPORT_TRANSITION : Z;
  SUPPORT_XY_COLOR : Z
}.

(** [v.get(k, default)] for a key [k] that is a value of the program; the
    keys of [v] are strings. *)
Definition py_get_key (v k default : json) : exn + json :=
  match v with
  | JObj m =>
      match pykey_of k with
      | Unhashable => inl TypeError
      | KeyScalar => inr default
      | KeyStr s => inr (match m !! s with Some x => x | None => default end)
      end
  | _ => inl AttributeError
  end.

Module Light.
Section Features.
Context `{LightImports}.

Definition CONF_DEVICE_CONFIG : string := "device_config".

Definition SUPPORT_ON_OFF : Z := Z.lor SUPPORT_FLASH SUPPORT_TRANSITION.
Definition SUPPORT_DIMMABLE : Z := Z.lor SUPPORT_ON_OFF SUPPORT_BRIGHTNESS.
(** The module rebinds the name that it imported. *)
Definition SUPPORT_COLOR_TEMP : Z :=
  Z.lor SUPPORT_DIMMABLE SUPPORT_COLOR_TEMP.
Definition SUPPORT_COLOR : Z :=
  Z.lor (Z.lor (Z.lor SUPPORT_DIMMABLE SUPPORT_EFFECT) SUPPORT_RGB_COLOR)
        SUPPORT_XY_COLOR.
Definition SUPPORT_EXTENDED : Z := Z.lor SUPPORT_COLOR_TEMP SUPPORT_COLOR.

(** The dict display evaluates its entries in order; a later entry for a
    key replaces an earlier one. *)
Definition SUPPORTED_TYPES : gmap string Z :=
  foldl (λ m kv, <[kv.1 := kv.2]> m) ∅
        [("Extended color light", SUPPORT_EXTENDED);
         ("Color temperature light", SUPPORT_COLOR_TEMP);
         ("Color light", SUPPORT_COLOR);
         ("Dimmable light", SUPPORT_DIMMABLE);
         ("On/Off plug-in unit", SUPPORT_ON_OFF);
         ("Color temperature light", SUPPORT_COLOR_TEMP)].

(** [config.get(DOMAIN, {}).get(CONF_DEVICE_CONFIG, {}).get(uid, {})
    .get('type')], where [config] is the configuration that the platform
    is set up with and [DOMAIN] is the light domain. *)
Definition configured_type (config uid : json) : exn + json :=
  domain_config ← py_get config light_DOMAIN (JObj ∅);
  device_config ← py_get domain_config CONF_DEVICE_CONFIG (JObj ∅);
  node_config ← py_get_key device_config uid (JObj ∅);
  py_get node_config "type" JNull.

(** [Light.__init__], after [super().__init__]: the value that it leaves
    in [self._supported_features]. *)
Definition supported_features (config device : json) : exn + Z :=
  uid ← py_get device "uniqueid" JNull;
  configured ← configured_type config uid;
  dtype ← match configured with
          | JNull => py_get device "type" JNull
          | _ => inr configured
          end;
  known ← match pykey_of dtype with
          | Unhashable => inl TypeError
          | KeyScalar => inr None
          | KeyStr type => inr (SUPPORTED_TYPES !! type)
          end;
  match known with
  | Some features => inr features
  | None =>
      let features := Z.lor (Z.lor 0 SUPPORT_BRIGHTNESS) SUPPORT_TRANSITION in
      hascolor ← py_get device "hascolor" JNull;
      if truthy hascolor then inr (Z.lor features SUPPORT_COLOR_TEMP)
      else inr features
  end.
End Features.

Definition async_turn_off (config : Config) (self : nat) : prog unit :=
  _async_put_state config self (JObj {[ "on" := JBool false ]}) "/state".

Definition is_on (e : Entity.t) : exn + json :=
  py_get (Entity._state e) "on" JNull.


Definition color_temp (e : Entity.t) : exn + json :=
  py_get (Entity._state e) "ct" JNull.
End Light.

Module BinarySensor.
Definition is_on (e : Entity.t) : exn + json :=
  py_get (Entity._state e) "open" JNull.
End BinarySensor.

(** The feature set [features] has every bit of [bits]. *)
Definition supports (features bits : Z) : Prop :=
  Z.land features bits = bits.

(** ** A bridge with three devices *)

Definition config0 : Config := mkConfig "bridge" 80 "KEY" (Some ∅).

Definition world0 : World := mkWorld ∅ ∅ false [] [].

(** A door sensor that the classifier knows. *)
Definition magnet : json :=
  JObj {[ "modelid" := JStr "lumi.sensor_magnet";
          "uniqueid" := JStr "00:15:8d:00:01-01";
          "state" := JObj {[ "open" := JBool false ]} ]}.

(** A light that the classifier knows. *)
Definition bulb : json :=
  JObj {[ "type" := JStr "Dimmable light";
          "uniqueid" := JStr "00:17:88:01:02-0b";
          "state" := JObj {[ "on" := JBool false; "bri" := JNum 50;
                             "ct" := JNum 300 ]} ]}.

(** A sensor that it does not know. *)
Definition daylight : json :=
  JObj {[ "modelid" := JStr "PHDL00";
          "uniqueid" := JStr "00:21:2e:ff:ff-01";
          "state" := JObj {[ "dark" := JBool true ]} ]}.

(** The frame [{"r": r, "id": id, "e": "changed", "state": state}] *)
Definition changed (r id : string) (state : gmap string json)
    : gmap string json :=
  {[ "r" := JStr r; "id" := JStr id; "e" := JStr "changed";
     "state" := JObj state ]}.

(** A GET that succeeds with [body], undisturbed. *)
Definition fetched (body : json) : list turn :=
  [quiet (HttpResponse 200); quiet (Body body); quiet Resumed].

(** The platform builds the handle of [device] while the router waits. *)
Definition platform_sets_up (dclass device_id : string) (device : json)
    : turn :=
  mkTurn Resumed (atomically (Entity_init dclass device_id device)).

(** The handle that the platform builds for the door sensor. *)
Definition magnet_handle : Entity.t :=
  Entity.mk "sensors" "5" (JStr "00:15:8d:00:01-01") magnet
            (JObj {[ "open" := JBool false ]}).

(** The client after the platform has built a handle for the door sensor
    twice: the first is registered, the second is not. *)
Definition world_built_twice : World :=
  atomically (Entity_init "sensors" "5" magnet)
    (atomically (Entity_init "sensors" "5" magnet) world0).

(** The answers of a bridge whose config knows the websocket port. *)
Definition config_fetched : list turn :=
  fetched (JObj {[ "websocketport" := JNum 8080 ]}).

(** The handle that the platform builds for the light. *)
Definition bulb_handle : Entity.t :=
  Entity.mk "lights" "1" (JStr "00:17:88:01:02-0b") bulb
            (JObj {[ "on" := JBool false; "bri" := JNum 50;
                     "ct" := JNum 300 ]}).

(** The client with that handle registered. *)
Definition world_lit : World :=
  atomically (Entity_init "lights" "1" bulb) world0.

(** The request on which a run is suspended, if it is. *)
Definition waiting_for {R : Type} (o : outcome R) : option request :=
  match out_status o with
  | Blocked rq _ => Some rq
  | _ => None
  end.

(** The exception with which a run ended, if it did. *)
Definition raised {R : Type} (o : outcome R) : option exn :=
  match out_status o with
  | Raised e => Some e
  | _ => None
  end.

(** A configuration that declares the daylight sensor a binary sensor. *)
Definition config_override : Config :=
  mkConfig "bridge" 80 "KEY"
           (Some {[ "00:21:2e:ff:ff-01" := Some "binary_sensor" ]}).

(** The light domain under the name "light", with one assignment of
    distinct bits to the features. *)
Definition distinct_bits : LightImports :=
  Build_LightImports "light" 1 2 4 8 16 32 64.

(** The client while the discovery of the door sensor waits for the
    platform, which has built the handle and not yet registered it. *)
Definition world_awaiting : World :=
  set_entities (λ h, h ++ [magnet_handle])%list
    (out_world (run (_find_unknown_device config0 "sensors" "5") world0
                    (fetched magnet))).

(** The same, after the wait of the discovery has timed out. *)
Definition world_timed_out : World :=
  set_entities (λ h, h ++ [magnet_handle])%list
    (out_world (run (_find_unknown_device config0 "sensors" "5") world0
                    (fetched magnet ++ [quiet Resumed]))).

(** An event that reports the battery of the door sensor. *)
Definition battery_report : gmap string json :=
  {[ "r" := JStr "sensors"; "id" := JStr "5"; "e" := JStr "changed";
     "config" := JObj {[ "battery" := JNum 91 ]};
     "state" := JObj {[ "open" := JBool true ]} ]}.


(** * Properties *)

(** ** Running a composed coroutine *)

Lemma observe_nil {R : Type} (o : outcome R) : observe [] o = o.
Proof. by destruct o. Qed.

Lemma observe_observe {R : Type} (tr1 tr2 : list obs) (o : outcome R) :
  observe tr1 (observe tr2 o) = observe (tr1 ++ tr2) o.
Proof. unfold observe; cbn. by rewrite (assoc_L (++)). Qed.

Lemma then_run_observe {A B : Type} (tr : list obs) (o : outcome A)
    (f : A → prog B) :
  then_run (observe tr o) f = observe tr (then_run o f).
Proof.
  unfold then_run; cbn.
  destruct (out_status o); try reflexivity.
  by rewrite observe_observe.
Qed.

Lemma run_bind {A B : Type} (p : prog A) (f : A → prog B) (w : World)
    (script : list turn) :
  run (p ≫= f) w script = then_run (run p w script) f.
Proof.
  change (p ≫= f) with (bind p f).
  revert w script; induction p as [r|e|why|k IH|w' k IH|o k IH|rq k IH];
    intros w script; cbn.
  - unfold then_run; cbn. by rewrite observe_nil.
  - reflexivity.
  - reflexivity.
  - apply IH.
  - apply IH.
  - by rewrite IH, then_run_observe.
  - destruct script as [|t script]; [reflexivity|].
    by rewrite IH, then_run_observe.
Qed.

Lemma then_catch_observe {R : Type} (tr : list obs) (o : outcome R)
    (h : exn → option (prog R)) :
  then_catch (observe tr o) h = observe tr (then_catch o h).
Proof.
  unfold then_catch; cbn.
  destruct (out_status o) as [r|e|why|rq k]; try reflexivity.
  destruct (h e); [|reflexivity].
  by rewrite observe_observe.
Qed.

Lemma run_try_except {R : Type} (p : prog R) (h : exn → option (prog R))
    (w : World) (script : list turn) :
  run (try_except p h) w script = then_catch (run p w script) h.
Proof.
  revert w script; induction p as [r|e|why|k IH|w' k IH|o k IH|rq k IH];
    intros w script; cbn.
  - reflexivity.
  - unfold then_catch; cbn. destruct (h e); [|reflexivity].
    by rewrite observe_nil.
  - reflexivity.
  - apply IH.
  - apply IH.
  - by rewrite IH, then_catch_observe.
  - destruct script as [|t script]; [reflexivity|].
    by rewrite IH, then_catch_observe.
Qed.

(** ** The registry under the writes of the client *)

Lemma lookup_entry_setitem (w : World) (dclass device_id : string)
    (v : option nat) (inner : gmap string (option nat)) (k i : string) :
  _devices w !! dclass = Some inner →
  lookup_entry (set_devices (<[dclass := <[device_id := v]> inner]>) w) k i
  = if decide (k = dclass ∧ i = device_id)
    then match v with Some obj => Live obj | None => Placeholder end
    else lookup_entry w k i.
Proof.
  intros Hin. unfold lookup_entry, set_devices; cbn.
  destruct (decide (k = dclass)) as [->|Hk].
  - rewrite lookup_insert_eq, Hin.
    destruct (decide (i = device_id)) as [->|Hi].
    + rewrite lookup_insert_eq, decide_True; [by destruct v|done].
    + rewrite lookup_insert_ne, decide_False; [done|tauto|done].
  - rewrite lookup_insert_ne, decide_False; [done|tauto|done].
Qed.

Lemma lookup_entry_setdefault (w : World) (dclass k i : string) :
  _devices w !! dclass = None →
  lookup_entry (set_devices (<[dclass := ∅]>) w) k i = lookup_entry w k i.
Proof.
  intros Hnone. unfold lookup_entry, set_devices; cbn.
  destruct (decide (k = dclass)) as [->|Hk].
  - by rewrite lookup_insert_eq, Hnone, lookup_empty.
  - by rewrite lookup_insert_ne.
Qed.

Lemma lookup_entry_Some (w : World) (k i : string) :
  lookup_entry w k i ≠ Absent →
  ∃ inner, _devices w !! k = Some inner ∧ is_Some (inner !! i).
Proof.
  unfold lookup_entry. destruct (_devices w !! k) as [inner|]; [|done].
  intros H. exists inner. split; [done|].
  destruct (inner !! i); [eauto|done].
Qed.

(** ** Invariants: the rules *)

Lemma keeps_run {R : Type} (P : World → Prop) (p : prog R) (w : World)
    (script : list turn) :
  P w → keeps P p w → others_keep P script →
  P (out_world (run p w script)).
Proof.
  revert w script; induction p as [r|e|why|k IH|w' k IH|o k IH|rq k IH];
    intros w script Hw Hp Hs; cbn in *; try done.
  - by apply IH.
  - destruct Hp. by apply IH.
  - by apply IH.
  - destruct script as [|t script]; [done|]. cbn.
    apply Forall_cons in Hs as [Ht Hs].
    apply IH; [by apply Ht|by apply Hp, Ht|done].
Qed.

Lemma keeps_bind {A B : Type} (P : World → Prop) (p : prog A)
    (f : A → prog B) (w : World) :
  P w → keeps P p w → (∀ r w', P w' → keeps P (f r) w') →
  keeps P (p ≫= f) w.
Proof.
  change (p ≫= f) with (bind p f). intros Hw Hp Hf.
  revert w Hw Hp; induction p as [r|e|why|k IH|w' k IH|o k IH|rq k IH];
    intros w Hw Hp; cbn in *; try done.
  - by apply Hf.
  - by apply IH.
  - destruct Hp. split; [done|]. by apply IH.
  - by apply IH.
  - intros r w' Hw'. apply IH; [done|]. by apply Hp.
Qed.

Lemma keeps_try_except {R : Type} (P : World → Prop) (p : prog R)
    (h : exn → option (prog R)) (w : World) :
  P w → keeps P p w → (∀ e q w', h e = Some q → P w' → keeps P q w') →
  keeps P (try_except p h) w.
Proof.
  intros Hw Hp Hh.
  revert w Hw Hp; induction p as [r|e|why|k IH|w' k IH|o k IH|rq k IH];
    intros w Hw Hp; cbn in *; try done.
  - destruct (h e) as [q|] eqn:He; [|done]. by eapply Hh.
  - by apply IH.
  - destruct Hp. split; [done|]. by apply IH.
  - by apply IH.
  - intros r w' Hw'. apply IH; [done|]. by apply Hp.
Qed.

Lemma keeps_try_finally {R : Type} (P : World → Prop) (p : prog R)
    (fin : prog unit) (w : World) :
  P w → keeps P p w → (∀ w', P w' → keeps P fin w') →
  keeps P (try_finally p fin) w.
Proof.
  intros Hw Hp Hf.
  revert w Hw Hp; induction p as [r|e|why|k IH|w' k IH|o k IH|rq k IH];
    intros w Hw Hp; cbn in *; try done.
  - apply (keeps_bind P fin (λ _, Ret r)); [done|by apply Hf|done].
  - apply (keeps_bind P fin (λ _, Raise e)); [done|by apply Hf|done].
  - by apply IH.
  - destruct Hp. split; [done|]. by apply IH.
  - by apply IH.
  - intros r w' Hw'. apply IH; [done|]. by apply Hp.
Qed.

Lemma keeps_pure {A : Type} (P : World → Prop) (r : exn + A) (w : World) :
  keeps P (pure r) w.
Proof. by destruct r. Qed.

Lemma keeps_expect {A : Type} (P : World → Prop) (rq : request)
    (shape : response → option A) (w : World) :
  keeps P (expect rq shape) w.
Proof.
  cbn. intros r w' _. destruct r; cbn; try done.
  all: by destruct (shape _).
Qed.

Lemma keeps_attempt {A : Type} (P : World → Prop) (p : prog A) (w : World) :
  P w → keeps P p w → keeps P (attempt p) w.
Proof.
  intros Hw Hp. unfold attempt. apply keeps_try_except; [done| |].
  - apply keeps_bind; done.
  - intros e q w' [= <-] _. done.
Qed.

(** A write that leaves [_devices] alone keeps every entry. *)
Lemma keeps_modify_frame (dclass device_id : string) (v : entry)
    (f : World → World) (w : World) :
  (∀ w', _devices (f w') = _devices w') →
  entry_is dclass device_id v w →
  keeps (entry_is dclass device_id v) (modify f) w.
Proof.
  intros Hf Hw. cbn. split; [|done].
  unfold entry_is, lookup_entry in *. by rewrite Hf.
Qed.

Lemma keeps_devices_setdefault (dclass device_id : string) (v : entry)
    (d : string) (w : World) :
  entry_is dclass device_id v w →
  keeps (entry_is dclass device_id v) (devices_setdefault d) w.
Proof.
  intros Hw. unfold devices_setdefault. cbn.
  destruct (_devices w !! d) eqn:Hd; cbn; [done|]. split; [|done].
  unfold entry_is. by rewrite lookup_entry_setdefault.
Qed.

Lemma keeps_devices_setitem (dclass device_id : string) (v : entry)
    (d j : string) (x : option nat) (w : World) :
  entry_is dclass device_id v w →
  (d = dclass → j = device_id →
   v = match x with Some obj => Live obj | None => Placeholder end) →
  keeps (entry_is dclass device_id v) (devices_setitem d j x) w.
Proof.
  intros Hw Hx. unfold devices_setitem. cbn.
  destruct (_devices w !! d) as [inner|] eqn:Hd; cbn; [|done].
  split; [|done]. unfold entry_is. rewrite lookup_entry_setitem by done.
  case_decide as Heq; [|done]. destruct Heq as [-> ->]. symmetry; auto.
Qed.

Lemma keeps_read {R : Type} (P : World → Prop) (f : World → prog R)
    (w : World) :
  keeps P (f w) w → keeps P (read ≫= f) w.
Proof. done. Qed.

Lemma keeps_emit {R : Type} (P : World → Prop) (o : obs) (p : prog R)
    (w : World) :
  keeps P p w → keeps P (emit o;; p) w.
Proof. done. Qed.

Lemma keeps_set_result (dclass device_id : string) (v : entry)
    (f obj : nat) (w : World) :
  entry_is dclass device_id v w →
  keeps (entry_is dclass device_id v) (set_result f obj) w.
Proof.
  intros Hw. unfold set_result. apply keeps_read.
  by destruct (futures w !! f) as [[| |]|].
Qed.

Lemma keeps_create_future (dclass device_id : string) (v : entry)
    (w : World) :
  entry_is dclass device_id v w →
  keeps (entry_is dclass device_id v) create_future w.
Proof.
  intros Hw. unfold create_future. apply keeps_read.
  apply keeps_bind; [done|by apply keeps_modify_frame|done].
Qed.

(** ** [register_device] *)

Lemma register_device_keeps_live (dclass : string) (obj : nat)
    (k i : string) (h : nat) (w : World) :
  entry_is k i (Live h) w →
  keeps (entry_is k i (Live h)) (register_device dclass obj) w.
Proof.
  intros Hw. unfold register_device.
  apply keeps_bind; [done|by destruct (negb _)|intros _ w1 Hw1].
  apply keeps_bind; [done| |intros e w2 Hw2].
  { unfold deref. apply keeps_read. by destruct (entities w1 !! obj). }
  apply keeps_bind; [done|by apply keeps_devices_setdefault|intros _ w3 Hw3].
  apply keeps_read.
  destruct (lookup_entry w3 dclass (Entity.id e)) eqn:Hentry; [| |done].
  all: apply keeps_bind;
    [done
    |apply keeps_devices_setitem; [done|unfold entry_is in *; intros ? ?; congruence]
    |intros _ w4 Hw4].
  all: apply keeps_emit.
  all: destruct (pykey_of (Entity.uid e)) as [uid| |]; try done.
  all: apply keeps_read.
  all: destruct (_futures w4 !! uid) as [f|]; try done.
  all: apply keeps_bind;
    [done|by apply keeps_set_result|intros _ w5 Hw5].
  all: by apply keeps_modify_frame.
Qed.

Lemma register_device_duplicate (w : World) (dclass : string) (obj h : nat)
    (e : Entity.t) (script : list turn) :
  entities w !! obj = Some e →
  dclass ≠ "" →
  lookup_entry w dclass (Entity.id e) = Live h →
  run (register_device dclass obj) w script
  = mkOutcome [Log WARNING "Duplicate init"] w (Returned tt) script.
Proof.
  intros Hobj Hd Hlive. unfold register_device. cbn.
  destruct (String.eqb_spec dclass ""); [done|]. cbn.
  rewrite Hobj. cbn.
  destruct (lookup_entry_Some w dclass (Entity.id e)) as (inner & Hin & _);
    [congruence|].
  rewrite Hin. cbn. by rewrite Hlive.
Qed.


(** C1. A registry entry that holds a live handle is never overwritten:
    [register_device] for a [(dclass, id)] whose entry is live logs the
    warning "Duplicate init" and changes nothing, and no registration of
    any handle under any kind replaces the handle of a live entry, so each
    [(dclass, id)] has at most the one live handle it first got. *)
Theorem register_device_never_overwrites (w : World) (dclass : string)
    (obj h : nat) (e : Entity.t) (script : list turn)
    (Hobj : entities w !! obj = Some e)
    (Hd : dclass ≠ "")
    (Hlive : lookup_entry w dclass (Entity.id e) = Live h) :
  run (register_device dclass obj) w script
  = mkOutcome [Log WARNING "Duplicate init"] w (Returned tt) script
  ∧ ∀ (dclass' : string) (obj' : nat),
      lookup_entry (atomically (register_device dclass' obj') w)
                   dclass (Entity.id e)
      = Live h.
Proof.
  split; [by eapply register_device_duplicate|].
  intros dclass' obj'.
  apply (keeps_run (entry_is dclass (Entity.id e) (Live h)));
    [done|by apply register_device_keeps_live|by apply Forall_nil].
Qed.

(** ** [_req] *)


(** ** [handle_message] *)


(** ** Placeholders are kept by every coroutine of the client *)

Ltac keeps_step :=
  lazymatch goal with
  | |- True => exact I
  | |- keeps _ (Ret _) _ => exact I
  | |- keeps _ (Raise _) _ => exact I
  | |- keeps _ (Halt _) _ => exact I
  | |- keeps _ (Emit _ _) _ => cbn [keeps]
  | |- keeps _ (GetWorld _) _ => cbn [keeps]
  | |- keeps _ (Await _ _) _ => cbn [keeps]; intros ? ? ?
  | |- keeps _ (pure _) _ => apply keeps_pure
  | |- keeps _ (expect _ _) _ => apply keeps_expect
  | |- keeps _ (log _ _) _ => exact I
  | |- keeps _ (emit _) _ => exact I
  | |- keeps _ (modify _) _ => by apply keeps_modify_frame
  | |- keeps _ create_future _ => by apply keeps_create_future
  | |- keeps _ (devices_setdefault _) _ => by apply keeps_devices_setdefault
  | |- keeps _ (read ≫= _) _ => apply keeps_read
  | |- keeps _ (_ ≫= _) _ => apply keeps_bind; [assumption| |intros ? ? ?]
  | |- keeps _ (try_except _ _) _ =>
      apply keeps_try_except;
        [assumption|
        |let Hh := fresh in
         intros [] ? ? Hh ?;
         try unfold _req_except, _ws_listener_except in Hh;
         cbv beta iota in Hh; simplify_eq]
  | |- keeps _ (try_finally _ _) _ =>
      apply keeps_try_finally; [assumption| |intros ? ?]
  | |- keeps _ (attempt _) _ => apply keeps_attempt; [assumption|]
  | |- keeps _ (if ?b then _ else _) _ => destruct b eqn:?
  | |- keeps _ (match ?x with _ => _ end) _ => destruct x eqn:?
  end.

Section Placeholder.
Variables (dclass device_id : string) (v : entry).
Local Abbreviation P := (entry_is dclass device_id v).

Lemma keeps__req (config : Config) (action : verb) (node : string)
    (data : option json) (w : World) :
  P w → keeps P (_req config action node data) w.
Proof. intros Hw. unfold _req. cbv zeta. repeat keeps_step. Qed.

Lemma keeps_get (config : Config) (node : string) (w : World) :
  P w → keeps P (get config node) w.
Proof. apply keeps__req. Qed.

Lemma keeps_wait_for (f : nat) (timeout : Z) (w : World) :
  P w → keeps P (wait_for f timeout) w.
Proof. intros Hw. unfold wait_for. repeat keeps_step. Qed.

Lemma keeps_open_slot (comp uid i : string) (device : json) (w : World) :
  P w → keeps P (open_slot comp uid i device) w.
Proof. intros Hw. unfold open_slot. repeat keeps_step. Qed.

Lemma keeps_handle_message (self : nat) (message : json) (w : World) :
  P w → keeps P (handle_message self message) w.
Proof.
  intros Hw. unfold handle_message, state_setitem, state_update, deref.
  repeat keeps_step.
Qed.
End Placeholder.

Section PlaceholderKept.
Variables (dclass device_id : string).
Local Abbreviation P := (entry_is dclass device_id Placeholder).










End PlaceholderKept.

(** ** Event routing and discovery *)

Lemma placeholder_stored_entry (dclass device_id : string) (w : World) :
  lookup_entry (placeholder_stored dclass device_id w) dclass device_id
  = Placeholder.
Proof.
  unfold placeholder_stored, atomically. cbn.
  destruct (_devices w !! dclass) as [inner|] eqn:Hin; cbn.
  - rewrite Hin. cbn. rewrite lookup_entry_setitem by done.
    by rewrite decide_True.
  - rewrite lookup_insert_eq. cbn.
    rewrite lookup_entry_setitem by (cbn; apply lookup_insert_eq).
    by rewrite decide_True.
Qed.

Lemma placeholder_stored_frame (dclass device_id : string) (w : World) :
  _futures (placeholder_stored dclass device_id w) = _futures w
  ∧ futures (placeholder_stored dclass device_id w) = futures w
  ∧ entities (placeholder_stored dclass device_id w) = entities w.
Proof.
  unfold placeholder_stored, atomically. cbn.
  destruct (_devices w !! dclass) as [inner|] eqn:Hin; cbn.
  - by rewrite Hin.
  - by rewrite lookup_insert_eq.
Qed.

(** The first segment of [_find_unknown_device] and its fetch. *)
Lemma run__find_unknown_device_fetch (config : Config)
    (dclass device_id : string) (device : json) (w : World)
    (o1 o2 o3 : World → World) (rest : list turn) :
  dclass ≠ "" → device_id ≠ "" →
  run (_find_unknown_device config dclass device_id) w
      (mkTurn (HttpResponse 200) o1 :: mkTurn (Body device) o2
       :: mkTurn Resumed o3 :: rest)
  = observe
      [Log DEBUG "Finding unknown device: [%s][%s]";
       Awaited (Action GET
                  (_http_address config (dclass +:+ "/" +:+ device_id))
                  None 10);
       Awaited ResponseJson; Awaited ResponseRelease]
      (run (classify_and_wait config dclass device_id device)
         (o3 (o2 (o1 (placeholder_stored dclass device_id w)))) rest).
Proof.
  intros Hd Hi. unfold _find_unknown_device.
  destruct (String.eqb_spec dclass ""); [done|].
  destruct (String.eqb_spec device_id ""); [done|].
  unfold placeholder_stored, atomically. cbn.
  destruct (_devices w !! dclass) as [inner|] eqn:Hin; cbn.
  - rewrite Hin. cbn. reflexivity.
  - rewrite lookup_insert_eq. cbn. reflexivity.
Qed.

Lemma run__ws_handle_message_absent (config : Config)
    (message : gmap string json) (dclass device_id : string) (w : World)
    (script : list turn) :
  message !! "r" = Some (JStr dclass) →
  message !! "id" = Some (JStr device_id) →
  lookup_entry w dclass device_id = Absent →
  run (_ws_handle_message config (JObj message)) w script
  = observe [Log DEBUG "Finding device: [%s][%s]"]
      (then_catch
         (then_run (run (_find_unknown_device config dclass device_id)
                        w script)
                   (deliver (JObj message)))
         router_except).
Proof.
  intros Hr Hid Habsent. unfold _ws_handle_message.
  rewrite run_try_except. cbn -[_find_unknown_device].
  rewrite Hr. cbn -[_find_unknown_device].
  rewrite Hid. cbn -[_find_unknown_device].
  rewrite Habsent.
  change (bind ?p ?f) with (p ≫= f). rewrite run_bind.
  rewrite then_catch_observe. reflexivity.
Qed.

Lemma run__ws_handle_message_placeholder (config : Config)
    (message : gmap string json) (dclass device_id : string) (w : World)
    (script : list turn) :
  message !! "r" = Some (JStr dclass) →
  message !! "id" = Some (JStr device_id) →
  lookup_entry w dclass device_id = Placeholder →
  run (_ws_handle_message config (JObj message)) w script
  = mkOutcome [Log DEBUG "Finding device: [%s][%s]";
               Log INFO "Unable to determine device: (%s : %s)."]
              w (Returned tt) script.
Proof.
  intros Hr Hid Hentry. unfold _ws_handle_message.
  rewrite run_try_except. cbn -[_find_unknown_device].
  rewrite Hr. cbn -[_find_unknown_device].
  rewrite Hid. cbn -[_find_unknown_device].
  rewrite Hentry. reflexivity.
Qed.

Lemma run_open_slot (comp uid device_id : string) (device : json)
    (w : World) (script : list turn) :
  run (open_slot comp uid device_id device) w script
  = mkOutcome (out_trace (run (open_slot comp uid device_id device) w []))
              (atomically (open_slot comp uid device_id device) w)
              (Returned tt) script.
Proof.
  unfold atomically, open_slot. cbn.
  by destruct (_futures w !! uid).
Qed.

Lemma open_slot_entry (comp uid device_id : string) (device : json)
    (w : World) (k i : string) :
  lookup_entry (atomically (open_slot comp uid device_id device) w) k i
  = lookup_entry w k i.
Proof.
  unfold atomically, open_slot. cbn.
  by destruct (_futures w !! uid).
Qed.

(** C3, as the code has it.  When the discovery that an event triggers
    succeeds, that is when [_find_unknown_device] returns a handle, the
    router goes on to call [handle_message] of that handle with the very
    event that triggered the discovery. *)
Theorem discovered_handle_gets_the_event (config : Config)
    (message : gmap string json) (dclass device_id : string) (w w' : World)
    (script rest : list turn) (tr : list obs) (obj : nat)
    (Hr : message !! "r" = Some (JStr dclass))
    (Hid : message !! "id" = Some (JStr device_id))
    (Habsent : lookup_entry w dclass device_id = Absent)
    (Hfound : run (_find_unknown_device config dclass device_id) w script
              = mkOutcome tr w' (Returned (Handle obj)) rest) :
  run (_ws_handle_message config (JObj message)) w script
  = observe (Log DEBUG "Finding device: [%s][%s]" :: tr)
      (run (try_except (handle_message obj (JObj message)) router_except)
           w' rest).
Proof.
  rewrite (run__ws_handle_message_absent config message dclass device_id)
    by done.
  rewrite Hfound. unfold then_run. cbn [out_status out_trace out_world
                                        out_rest deliver].
  rewrite then_catch_observe, <- run_try_except, observe_observe.
  reflexivity.
Qed.

(** C2, as the code has it.  When the wait on the discovery slot ends with
    the slot unresolved, [_find_unknown_device] cancels the slot and
    returns [False]; the placeholder that it stored for [(dclass, id)]
    before the fetch stays in the registry, so the entry is pending, not
    absent, and a later event for [(dclass, id)] is discarded without a new
    discovery. *)
Theorem discovery_timeout_keeps_placeholder (config : Config)
    (dclass device_id uid : string) (device : json) (comp : option string)
    (f : nat) (w : World) (o1 o2 o3 o4 : World → World) (rest : list turn)
    (Hd : dclass ≠ "") (Hi : device_id ≠ "")
    (Hcomp : component config dclass device = inr comp)
    (Hclassified : classified comp = true)
    (Huid : py_getitem device "uniqueid" = inr (JStr uid))
    (Hothers : others_keep (entry_is dclass device_id Placeholder)
                 [mkTurn (HttpResponse 200) o1; mkTurn (Body device) o2;
                  mkTurn Resumed o3; mkTurn Resumed o4]) :
  let w1 := o3 (o2 (o1 (placeholder_stored dclass device_id w))) in
  let w2 := atomically (open_slot (default "" comp) uid device_id device) w1 in
  _futures w2 !! uid = Some f →
  futures (o4 w2) !! f = Some Pending →
  let out := run (_find_unknown_device config dclass device_id) w
                 (mkTurn (HttpResponse 200) o1 :: mkTurn (Body device) o2
                  :: mkTurn Resumed o3 :: mkTurn Resumed o4 :: rest) in
  last (out_trace out) = Some (Awaited (WaitFor f 10))
  ∧ out_status out = Returned PyFalse
  ∧ out_rest out = rest
  ∧ lookup_entry (out_world out) dclass device_id = Placeholder
  ∧ ∀ (message : gmap string json) (script : list turn),
      message !! "r" = Some (JStr dclass) →
      message !! "id" = Some (JStr device_id) →
      run (_ws_handle_message config (JObj message)) (out_world out) script
      = mkOutcome [Log DEBUG "Finding device: [%s][%s]";
                   Log INFO "Unable to determine device: (%s : %s)."]
                  (out_world out) (Returned tt) script.
Proof.
  intros w1 w2 Hslot Htimeout out.
  assert (run (_find_unknown_device config dclass device_id) w
              (mkTurn (HttpResponse 200) o1 :: mkTurn (Body device) o2
               :: mkTurn Resumed o3 :: mkTurn Resumed o4 :: rest)
          = mkOutcome
              ([Log DEBUG "Finding unknown device: [%s][%s]";
                Awaited (Action GET
                           (_http_address config
                              (dclass +:+ "/" +:+ device_id)) None 10);
                Awaited ResponseJson; Awaited ResponseRelease]
               ++ out_trace (run (open_slot (default "" comp) uid device_id
                                            device) w1 [])
               ++ [Awaited (WaitFor f 10)])
              (set_future_heap (<[f := Cancelled]>) (o4 w2))
              (Returned PyFalse) rest) as Hrun.
  { rewrite run__find_unknown_device_fetch by done.
    unfold classify_and_wait. rewrite Hcomp. cbn [pure mbind prog_bind bind].
    rewrite Hclassified, Huid. cbn [pure mbind prog_bind bind pykey_of].
    change (bind ?p ?k) with (p ≫= k). rewrite run_bind, run_open_slot.
    unfold then_run. cbn [out_status out_trace out_world out_rest].
    fold w1. fold w2. cbn. rewrite Hslot. cbn. rewrite Htimeout. cbn.
    reflexivity. }
  assert (lookup_entry (set_future_heap (<[f := Cancelled]>) (o4 w2))
                       dclass device_id = Placeholder) as Hentry.
  { apply Forall_cons in Hothers as [H1 Hothers].
    apply Forall_cons in Hothers as [H2 Hothers].
    apply Forall_cons in Hothers as [H3 Hothers].
    apply Forall_cons in Hothers as [H4 _].
    cbn in H1, H2, H3, H4.
    change (lookup_entry (o4 w2) dclass device_id = Placeholder).
    apply H4. unfold entry_is, w2. rewrite open_slot_entry.
    apply H3, H2, H1, placeholder_stored_entry. }
  subst out. rewrite Hrun. cbn [out_status out_world out_rest out_trace].
  split; [by rewrite !app_assoc, last_snoc|].
  repeat split; try done.
  intros message script Hr Hid.
  by apply (run__ws_handle_message_placeholder config message dclass
              device_id).
Qed.

(** C8, as the code has it.  When the classifier returns none for the
    fetched record, routing the event discards it: no setup is started, no
    discovery slot is created and no handle; the one thing the router
    writes is a placeholder for [(dclass, id)], so the entry is pending
    afterwards, not absent.  The refresh loop does the same with a record
    that it cannot classify. *)
Theorem unclassified_event_leaves_placeholder (config : Config)
    (message : gmap string json) (dclass device_id : string) (device : json)
    (comp : option string) (w : World) (o1 o2 o3 : World → World)
    (rest : list turn)
    (Hr : message !! "r" = Some (JStr dclass))
    (Hid : message !! "id" = Some (JStr device_id))
    (Hd : dclass ≠ "") (Hi : device_id ≠ "")
    (Habsent : lookup_entry w dclass device_id = Absent)
    (Hcomp : component config dclass device = inr comp)
    (Hnone : classified comp = false) :
  let w' := placeholder_stored dclass device_id w in
  run (_ws_handle_message config (JObj message)) w
      (mkTurn (HttpResponse 200) o1 :: mkTurn (Body device) o2
       :: mkTurn Resumed o3 :: rest)
  = mkOutcome
      [Log DEBUG "Finding device: [%s][%s]";
       Log DEBUG "Finding unknown device: [%s][%s]";
       Awaited (Action GET
                  (_http_address config (dclass +:+ "/" +:+ device_id))
                  None 10);
       Awaited ResponseJson; Awaited ResponseRelease;
       Log INFO "Unable to determine device: (%s : %s)."]
      (o3 (o2 (o1 w'))) (Returned tt) rest
  ∧ lookup_entry w' dclass device_id = Placeholder
  ∧ _futures w' = _futures w
  ∧ futures w' = futures w
  ∧ entities w' = entities w
  ∧ ∀ (inner : gmap string (option nat)) (script : list turn),
      _devices w !! dclass = Some inner →
      run (refresh_device config dclass (device_id, device)) w script
      = mkOutcome []
          (set_devices (<[dclass := <[device_id := None]> inner]>) w)
          (Returned tt) script.
Proof.
  intros w'. split; [|split; [apply placeholder_stored_entry|]].
  - rewrite (run__ws_handle_message_absent config message dclass device_id)
      by done.
    rewrite run__find_unknown_device_fetch by done.
    unfold classify_and_wait. rewrite Hcomp. cbn [pure mbind prog_bind bind].
    rewrite Hnone. reflexivity.
  - destruct (placeholder_stored_frame dclass device_id w) as (? & ? & ?).
    repeat split; try done.
    intros inner script Hin. unfold refresh_device. cbn.
    rewrite Hin. cbn.
    assert (inner !! device_id = None) as ->.
    { unfold lookup_entry in Habsent. rewrite Hin in Habsent.
      by destruct (inner !! device_id) as [[]|]. }
    cbn. rewrite Hin. cbn. rewrite Hcomp. cbn. rewrite Hnone. reflexivity.
Qed.


(** ** The properties at work on the example bridge *)

Lemma register_device_never_overwrites_witness :
  entities world_built_twice !! 1 = Some magnet_handle
  ∧ lookup_entry world_built_twice "sensors" "5" = Live 0
  ∧ run (register_device "sensors" 1) world_built_twice []
    = mkOutcome [Log WARNING "Duplicate init"] world_built_twice
                (Returned tt) [].
Proof.
  assert (entities world_built_twice !! 1 = Some magnet_handle) as Hobj
    by (vm_compute; reflexivity).
  assert (lookup_entry world_built_twice "sensors"
            (Entity.id magnet_handle) = Live 0) as Hlive
    by (vm_compute; reflexivity).
  assert ("sensors" ≠ "") as Hd by discriminate.
  split; [exact Hobj|]. split; [exact Hlive|].
  exact (proj1 (register_device_never_overwrites world_built_twice "sensors"
                  1 0 magnet_handle [] Hobj Hd Hlive)).
Defined.



(** C3, a run that contradicts the claim.  An event for the unknown door
    sensor 5 says that it is open.  The record is fetched, the platform
    builds the handle (from a record that says closed) and registers it,
    the slot resolves, and the router hands that same event to
    [handle_message]: the new handle says open. *)
Lemma triggering_event_reaches_new_handle :
  let out := run (_ws_handle_message config0
                    (JObj (changed "sensors" "5" {[ "open" := JBool true ]})))
                 world0
                 (fetched magnet ++ [platform_sets_up "sensors" "5" magnet]) in
  out_status out = Returned tt
  ∧ out_trace out
    = [Log DEBUG "Finding device: [%s][%s]";
       Log DEBUG "Finding unknown device: [%s][%s]";
       Awaited (Action GET "http://bridge:80/api/KEY/sensors/5" None 10);
       Awaited ResponseJson; Awaited ResponseRelease;
       AddJob "binary_sensor" "dcz" ("sensors", "5", magnet);
       Awaited (WaitFor 0 10);
       Log DEBUG "Default message handler."; Log DEBUG "Updating state.";
       ScheduleUpdate 0]
  ∧ lookup_entry (out_world out) "sensors" "5" = Live 0
  ∧ Entity._state magnet_handle = JObj {[ "open" := JBool false ]}
  ∧ Entity._state <$> entities (out_world out) !! 0
    = Some (JObj {[ "open" := JBool true ]}).
Proof. vm_compute. repeat split; reflexivity. Qed.

Lemma discovered_handle_gets_the_event_witness :
  let message := changed "sensors" "5" {[ "open" := JBool true ]} in
  let script :=
    (fetched magnet ++ [platform_sets_up "sensors" "5" magnet])%list in
  let found := run (_find_unknown_device config0 "sensors" "5") world0
                   script in
  lookup_entry world0 "sensors" "5" = Absent
  ∧ out_status found = Returned (Handle 0)
  ∧ run (_ws_handle_message config0 (JObj message)) world0 script
    = observe (Log DEBUG "Finding device: [%s][%s]" :: out_trace found)
        (run (try_except (handle_message 0 (JObj message)) router_except)
             (out_world found) (out_rest found)).
Proof.
  intros message script found.
  assert (lookup_entry world0 "sensors" "5" = Absent) as Habsent
    by reflexivity.
  assert (found = mkOutcome (out_trace found) (out_world found)
                            (Returned (Handle 0)) (out_rest found)) as Hfound
    by (vm_compute; reflexivity).
  split; [exact Habsent|]. split; [vm_compute; reflexivity|].
  exact (discovered_handle_gets_the_event config0 message "sensors" "5"
           world0 (out_world found) script (out_rest found)
           (out_trace found) 0 eq_refl eq_refl Habsent Hfound).
Defined.

(** C2, a run that contradicts the claim.  The door sensor is fetched and
    classified, the setup is started, and the wait ends with the slot
    unresolved.  Afterwards the slot is still in [_futures], cancelled,
    and the registry still holds the placeholder for the sensor. *)
Lemma timed_out_discovery_is_not_forgotten :
  let out := run (_find_unknown_device config0 "sensors" "5") world0
                 (fetched magnet ++ [quiet Resumed]) in
  out_trace out
  = [Log DEBUG "Finding unknown device: [%s][%s]";
     Awaited (Action GET "http://bridge:80/api/KEY/sensors/5" None 10);
     Awaited ResponseJson; Awaited ResponseRelease;
     AddJob "binary_sensor" "dcz" ("sensors", "5", magnet);
     Awaited (WaitFor 0 10)]
  ∧ out_status out = Returned PyFalse
  ∧ _futures (out_world out) !! "00:15:8d:00:01-01" = Some 0
  ∧ futures (out_world out) = [Cancelled]
  ∧ lookup_entry (out_world out) "sensors" "5" = Placeholder
  ∧ ¬ (_futures (out_world out) !! "00:15:8d:00:01-01" = None
       ∧ lookup_entry (out_world out) "sensors" "5" = Absent).
Proof.
  vm_compute. repeat split; try reflexivity. intros [? ?]; discriminate.
Qed.

Lemma discovery_timeout_keeps_placeholder_witness :
  let out := run (_find_unknown_device config0 "sensors" "5") world0
                 (fetched magnet ++ [quiet Resumed]) in
  component config0 "sensors" magnet = inr (Some "binary_sensor")
  ∧ out_status out = Returned PyFalse
  ∧ lookup_entry (out_world out) "sensors" "5" = Placeholder.
Proof.
  intros out.
  assert ("sensors" ≠ "") as Hd by discriminate.
  assert ("5" ≠ "") as Hi by discriminate.
  assert (component config0 "sensors" magnet = inr (Some "binary_sensor"))
    as Hcomp by (vm_compute; reflexivity).
  assert (py_getitem magnet "uniqueid" = inr (JStr "00:15:8d:00:01-01"))
    as Huid by (vm_compute; reflexivity).
  assert (others_keep (entry_is "sensors" "5" Placeholder)
            [quiet (HttpResponse 200); quiet (Body magnet); quiet Resumed;
             quiet Resumed]) as Hothers
    by (repeat constructor; intros w Hw; exact Hw).
  pose proof (discovery_timeout_keeps_placeholder config0 "sensors" "5"
                "00:15:8d:00:01-01" magnet (Some "binary_sensor") 0 world0
                (λ w, w) (λ w, w) (λ w, w) (λ w, w) []
                Hd Hi Hcomp eq_refl Huid Hothers
                ltac:(vm_compute; reflexivity)
                ltac:(vm_compute; reflexivity)) as (_ & Hs & _ & He & _).
  split; [exact Hcomp|]. split; [exact Hs|exact He].
Defined.

(** C8, a run that contradicts the claim.  An event arrives for sensor 7,
    a daylight sensor, for which the classifier returns none.  The event
    is discarded and no slot is created, but the registry now holds a
    placeholder for the sensor: its entry is pending. *)
Lemma unclassified_event_creates_entry :
  let out := run (_ws_handle_message config0
                    (JObj (changed "sensors" "7" {[ "dark" := JBool false ]})))
                 world0 (fetched daylight) in
  component config0 "sensors" daylight = inr None
  ∧ lookup_entry world0 "sensors" "7" = Absent
  ∧ out_status out = Returned tt
  ∧ _futures (out_world out) = ∅
  ∧ lookup_entry (out_world out) "sensors" "7" = Placeholder
  ∧ lookup_entry (out_world out) "sensors" "7" ≠ Absent.
Proof. vm_compute. repeat split; try reflexivity. discriminate. Qed.

Lemma unclassified_event_leaves_placeholder_witness :
  component config0 "sensors" daylight = inr None
  ∧ lookup_entry world0 "sensors" "7" = Absent
  ∧ run (_ws_handle_message config0
           (JObj (changed "sensors" "7" {[ "dark" := JBool false ]})))
        world0 (fetched daylight)
    = mkOutcome
        [Log DEBUG "Finding device: [%s][%s]";
         Log DEBUG "Finding unknown device: [%s][%s]";
         Awaited (Action GET "http://bridge:80/api/KEY/sensors/7" None 10);
         Awaited ResponseJson; Awaited ResponseRelease;
         Log INFO "Unable to determine device: (%s : %s)."]
        (placeholder_stored "sensors" "7" world0) (Returned tt) [].
Proof.
  assert ("sensors" ≠ "") as Hd by discriminate.
  assert ("7" ≠ "") as Hi by discriminate.
  assert (component config0 "sensors" daylight = inr None) as Hcomp
    by (vm_compute; reflexivity).
  assert (lookup_entry world0 "sensors" "7" = Absent) as Habsent
    by reflexivity.
  split; [exact Hcomp|]. split; [exact Habsent|].
  exact (proj1 (unclassified_event_leaves_placeholder config0
                  (changed "sensors" "7" {[ "dark" := JBool false ]})
                  "sensors" "7" daylight None world0
                  (λ w, w) (λ w, w) (λ w, w) []
                  eq_refl eq_refl Hd Hi Habsent Hcomp eq_refl)).
Defined.


(** ** Where the code departs from what it sets out to do *)

(** C6.  An event for the unknown light 1 triggers its discovery.  The
    record is classified as a light, and the setup sink is handed the
    kind "sensors" with it, not "lights", the kind under which the router
    was asked to find the device; the refresh loop, for the same record,
    hands over "lights".  The handle that the platform builds from the
    tuple of the router is registered as sensor 1, and the entry of light
    1 stays a placeholder. *)
Theorem light_is_set_up_as_a_sensor :
  let out := run (_find_unknown_device config0 "lights" "1") world0
                 (fetched bulb ++ [platform_sets_up "sensors" "1" bulb]) in
  component config0 "lights" bulb = inr (Some "light")
  ∧ out_trace out
    = [Log DEBUG "Finding unknown device: [%s][%s]";
       Awaited (Action GET "http://bridge:80/api/KEY/lights/1" None 10);
       Awaited ResponseJson; Awaited ResponseRelease;
       AddJob "light" "dcz" ("sensors", "1", bulb);
       Awaited (WaitFor 0 10)]
  ∧ out_status out = Returned (Handle 0)
  ∧ lookup_entry (out_world out) "sensors" "1" = Live 0
  ∧ lookup_entry (out_world out) "lights" "1" = Placeholder
  ∧ out_trace (run (refresh_device config0 "lights" ("1", bulb))
                   (atomically (devices_setdefault "lights") world0) [])
    = [AddJob "light" "dcz" ("lights", "1", bulb)].
Proof. vm_compute. repeat split; reflexivity. Qed.

(** C4.  When the GET of the first collection fails, be it by a client
    error, by the timeout or by a status other than 200, [get] returns
    [False], [devices.items()] raises [AttributeError], and the refresh
    task ends with that exception: no further request is made and the rest
    of the script is never consumed. *)
Theorem refresher_task_ends_on_failed_get (config : Config) (fuel : nat)
    (w : World) (o1 o2 o3 : World → World) (rest : list turn) :
  let url := _http_address config "sensors" in
  let w' := atomically (devices_setdefault "sensors") w in
  run (refresher_task (S fuel) config) w
      (mkTurn (Raises ClientError) o1 :: rest)
  = mkOutcome [Awaited (Action GET url None 10);
               Log ERROR "Error getting deCONZ data from %s."]
              (o1 w') (Raised AttributeError) rest
  ∧ run (refresher_task (S fuel) config) w
        (mkTurn (Raises TimeoutError) o1 :: rest)
    = mkOutcome [Awaited (Action GET url None 10);
                 Log ERROR "Timeout getting deCONZ data from %s."]
                (o1 w') (Raised AttributeError) rest
  ∧ run (refresher_task (S fuel) config) w
        (mkTurn (HttpResponse 500) o1 :: mkTurn (Text "") o2
         :: mkTurn Resumed o3 :: rest)
    = mkOutcome [Awaited (Action GET url None 10);
                 Awaited (ResponseText 10);
                 Log ERROR "deCONZ returned http status %d, response %s";
                 Awaited ResponseRelease]
                (o3 (o2 (o1 w'))) (Raised AttributeError) rest.
Proof.
  intros url w'. subst w'. unfold atomically. cbn.
  destruct (_devices w !! "sensors"); cbn; repeat split; reflexivity.
Qed.

(** C5.  Three runs of the listener against the example bridge.  When the
    pong does not arrive in time the socket is closed and the next
    connection attempt follows at once.  When the connection breaks the
    listener logs "Sleeping 5s and retrying", creates the sleep without
    waiting on it, closes the socket and connects again at once.  When the
    very first connection attempt fails there is no socket yet to close:
    the [finally] clause raises [UnboundLocalError] and the listener ends
    instead of retrying. *)
Theorem listener_reconnects_without_backoff :
  let pong_late :=
    run (_ws_listener config0 3) world0
        (config_fetched
         ++ [quiet (Socket 0); quiet (Raises TimeoutError); quiet Resumed;
             quiet (Raises TimeoutError); quiet Resumed; quiet (Socket 1)]) in
  let broken :=
    run (_ws_listener config0 3) world0
        (config_fetched
         ++ [quiet (Socket 0); quiet (Raises ConnectionClosed); quiet Resumed;
             quiet (Socket 1)]) in
  let refused :=
    run (_ws_listener config0 3) world0
        (config_fetched
         ++ [quiet (Raises ConnectionClosed); quiet (Socket 1)]) in
  (out_trace pong_late
   = [Awaited (Action GET "http://bridge:80/api/KEY/config" None 10);
      Awaited ResponseJson; Awaited ResponseRelease;
      Log INFO "Connecting to websocket on: %s";
      Awaited (Connect "bridge" (JNum 8080)); Awaited (Recv 0 20);
      Awaited (Ping 0); Awaited (WaitPong 10); Awaited (Close 0);
      Awaited (Connect "bridge" (JNum 8080))]
   ∧ waiting_for pong_late = Some (Recv 1 20))
  ∧ (out_trace broken
     = [Awaited (Action GET "http://bridge:80/api/KEY/config" None 10);
        Awaited ResponseJson; Awaited ResponseRelease;
        Log INFO "Connecting to websocket on: %s";
        Awaited (Connect "bridge" (JNum 8080)); Awaited (Recv 0 20);
        Log WARNING "Websocket exception: %s";
        Log WARNING "Websocket exception.Sleeping 5s and retrying.";
        SleepNotAwaited 5; Awaited (Close 0);
        Awaited (Connect "bridge" (JNum 8080))]
     ∧ waiting_for broken = Some (Recv 1 20))
  ∧ (out_trace refused
     = [Awaited (Action GET "http://bridge:80/api/KEY/config" None 10);
        Awaited ResponseJson; Awaited ResponseRelease;
        Log INFO "Connecting to websocket on: %s";
        Awaited (Connect "bridge" (JNum 8080));
        Log WARNING "Websocket exception: %s";
        Log WARNING "Websocket exception.Sleeping 5s and retrying.";
        SleepNotAwaited 5]
     ∧ raised refused = Some UnboundLocalError
     ∧ length (out_rest refused) = 1).
Proof. vm_compute. repeat split; reflexivity. Qed.

(** * Further properties of the client *)

(** ** The classifier and the features of a light *)

Lemma is_str_true (s : string) (v : json) : is_str s v = true → v = JStr s.
Proof.
  destruct v; cbn; try done. intros H. by apply String.eqb_eq in H as ->.
Qed.

(** X1. Config has precedence: when [device_config] gives a type for the
    unique id of a record, [component] returns that type, whatever the
    kind and the rest of the record are. *)
Theorem component_config_has_precedence (config : Config)
    (device_config : gmap string (option string)) (dclass u type : string)
    (device : gmap string json)
    (Hconfig : CONF_DEVICE_CONFIG config = Some device_config)
    (Huid : device !! "uniqueid" = Some (JStr u))
    (Htype : device_config !! u = Some (Some type)) :
  component config dclass (JObj device) = inr (Some type).
Proof.
  unfold component. rewrite Hconfig. cbn. rewrite Huid. cbn.
  rewrite Htype. reflexivity.
Qed.

(** X2. Without an override in the configuration, [component] returns a
    component type in two cases only: "binary_sensor" for a sensor whose
    model is "lumi.sensor_magnet", and "light" for a light whose type is
    one of the four light types or whose model starts with
    "TRADFRI bulb". *)
Theorem component_without_override (config : Config) (dclass c : string)
    (device : json)
    (Hconfig : CONF_DEVICE_CONFIG config = None
               ∨ CONF_DEVICE_CONFIG config = Some ∅)
    (Hcomp : component config dclass device = inr (Some c)) :
  (dclass = "sensors" ∧ c = "binary_sensor"
   ∧ py_getitem device "modelid" = inr (JStr "lumi.sensor_magnet"))
  ∨ (dclass = "lights" ∧ c = "light"
     ∧ ((∃ type, py_getitem device "type" = inr (JStr type)
                 ∧ type ∈ LIGHT_TYPES)
        ∨ (∃ modelid, py_getitem device "modelid" = inr (JStr modelid)
                      ∧ String.prefix "TRADFRI bulb" modelid = true))).
Proof.
  assert ((if String.eqb dclass "sensors" then
             has_model ← py_in "modelid" device;
             if has_model : bool then
               modelid ← py_getitem device "modelid";
               if is_str "lumi.sensor_magnet" modelid
               then inr (Some "binary_sensor") else inr None
             else inr None
           else if String.eqb dclass "lights" then
             has_type ← py_in "type" device;
             by_type ←
               (if has_type : bool then
                  type ← py_getitem device "type";
                  inr (existsb (λ s, is_str s type) LIGHT_TYPES)
                else inr false);
             if by_type : bool then inr (Some "light") else
             has_model ← py_in "modelid" device;
             if has_model : bool then
               modelid ← py_getitem device "modelid";
               match modelid with
               | JStr s =>
                   if String.prefix "TRADFRI bulb" s
                   then inr (Some "light") else inr None
               | _ => inl AttributeError
               end
             else inr None
           else inr None) = inr (Some c)) as Hdefault.
  { unfold component in Hcomp.
    destruct Hconfig as [Hc|Hc]; rewrite Hc in Hcomp; [exact Hcomp|].
    destruct (py_in "uniqueid" device) as [|[]];
      cbn [mbind exn_bind] in Hcomp; [done| |exact Hcomp].
    destruct (py_getitem device "uniqueid") as [|uniqueid];
      cbn [mbind exn_bind] in Hcomp; [done|].
    destruct (pykey_of uniqueid); cbn [mbind exn_bind] in Hcomp;
      [|exact Hcomp|done].
    by rewrite lookup_empty in Hcomp. }
  clear Hcomp.
  destruct (String.eqb_spec dclass "sensors") as [->|_].
  - left.
    destruct (py_in "modelid" device) as [|[]];
      cbn [mbind exn_bind] in Hdefault; [done| |done].
    destruct (py_getitem device "modelid") as [|modelid];
      cbn [mbind exn_bind] in Hdefault; [done|].
    destruct (is_str "lumi.sensor_magnet" modelid) eqn:Hm; [|done].
    apply is_str_true in Hm as ->. by simplify_eq.
  - destruct (String.eqb_spec dclass "lights") as [->|_]; [|done].
    right.
    assert ((has_model ← py_in "modelid" device;
             if has_model : bool then
               modelid ← py_getitem device "modelid";
               match modelid with
               | JStr s =>
                   if String.prefix "TRADFRI bulb" s
                   then inr (Some "light") else inr None
               | _ => inl AttributeError
               end
             else inr None) = inr (Some c) →
            c = "light"
            ∧ ∃ modelid, py_getitem device "modelid" = inr (JStr modelid)
                         ∧ String.prefix "TRADFRI bulb" modelid = true)
      as Hmodel.
    { destruct (py_in "modelid" device) as [|[]]; cbn [mbind exn_bind];
        [done| |done].
      destruct (py_getitem device "modelid") as [|[]]; cbn [mbind exn_bind];
        try done.
      destruct (String.prefix "TRADFRI bulb" s) eqn:Hp; [|done].
      intros [= <-]. eauto. }
    destruct (py_in "type" device) as [|[]];
      cbn [mbind exn_bind] in Hdefault; [done| |].
    + destruct (py_getitem device "type") as [|type];
        cbn [mbind exn_bind] in Hdefault; [done|].
      destruct (existsb (λ s, is_str s type) LIGHT_TYPES) eqn:Htype.
      * simplify_eq. repeat split. left.
        apply existsb_exists in Htype as (s & Hs & Hstr).
        apply is_str_true in Hstr as ->. exists s.
        split; [done|]. by apply list_elem_of_In.
      * destruct (Hmodel Hdefault) as [-> ?]. auto.
    + destruct (Hmodel Hdefault) as [-> ?]. auto.
Qed.

(** The result of the next step of a computation that did not fail. *)
Ltac bind_case H r :=
  match type of H with
  | mbind _ ?x = _ =>
      destruct x as [|r] eqn:?; [discriminate|]; cbn [mbind exn_bind] in H
  end.

Lemma supports_refl (b : Z) : supports b b.
Proof. apply Z.land_diag. Qed.

Lemma supports_lor_l (a c b : Z) : supports a b → supports (Z.lor a c) b.
Proof.
  unfold supports. intros Ha. apply Z.bits_inj'. intros n Hn.
  apply (f_equal (λ z, Z.testbit z n)) in Ha.
  rewrite Z.land_spec in Ha. rewrite Z.land_spec, Z.lor_spec.
  destruct (Z.testbit a n), (Z.testbit b n), (Z.testbit c n); done.
Qed.

Lemma supports_lor_r (a c b : Z) : supports c b → supports (Z.lor a c) b.
Proof. rewrite Z.lor_comm. apply supports_lor_l. Qed.

Lemma supports_trans (a b c : Z) : supports a b → supports b c → supports a c.
Proof.
  unfold supports. intros Hab Hbc. apply Z.bits_inj'. intros n Hn.
  apply (f_equal (λ z, Z.testbit z n)) in Hab, Hbc.
  rewrite Z.land_spec in Hab, Hbc. rewrite Z.land_spec.
  destruct (Z.testbit a n), (Z.testbit b n), (Z.testbit c n); done.
Qed.

Section LightFeatures.
Context `{LightImports}.

Lemma SUPPORTED_TYPES_lookup (type : string) (features : Z) :
  Light.SUPPORTED_TYPES !! type = Some features →
  (type = "Extended color light" ∧ features = Light.SUPPORT_EXTENDED)
  ∨ (type = "Color temperature light" ∧ features = Light.SUPPORT_COLOR_TEMP)
  ∨ (type = "Color light" ∧ features = Light.SUPPORT_COLOR)
  ∨ (type = "Dimmable light" ∧ features = Light.SUPPORT_DIMMABLE)
  ∨ (type = "On/Off plug-in unit" ∧ features = Light.SUPPORT_ON_OFF).
Proof.
  unfold Light.SUPPORTED_TYPES. cbn [foldl fst snd].
  repeat (rewrite lookup_insert_Some; intros [[<- <-]|[_ Hl]]; [tauto|];
          revert Hl).
  by rewrite lookup_empty.
Qed.

Lemma SUPPORT_ON_OFF_transition :
  supports Light.SUPPORT_ON_OFF SUPPORT_TRANSITION.
Proof. apply supports_lor_r, supports_refl. Qed.

Lemma SUPPORT_DIMMABLE_transition :
  supports Light.SUPPORT_DIMMABLE SUPPORT_TRANSITION.
Proof. apply supports_lor_l, SUPPORT_ON_OFF_transition. Qed.

Lemma SUPPORT_DIMMABLE_brightness :
  supports Light.SUPPORT_DIMMABLE SUPPORT_BRIGHTNESS.
Proof. apply supports_lor_r, supports_refl. Qed.

(** X3. Whatever the configuration and the record are, the feature set
    that [Light.__init__] computes has the transition bit: by the feature
    set of each supported type, and by the fallback for the others. *)
Theorem every_light_supports_transitions (config device : json)
    (features : Z)
    (Hfeatures : Light.supported_features config device = inr features) :
  supports features SUPPORT_TRANSITION.
Proof.
  unfold Light.supported_features in Hfeatures.
  bind_case Hfeatures uid. bind_case Hfeatures configured.
  bind_case Hfeatures dtype. bind_case Hfeatures known.
  destruct known as [f|].
  - simplify_eq. destruct (pykey_of dtype) as [type| |]; simplify_eq.
    match goal with
    | Hl : Light.SUPPORTED_TYPES !! _ = Some _ |- _ =>
        apply SUPPORTED_TYPES_lookup in Hl
          as [[_ ->]|[[_ ->]|[[_ ->]|[[_ ->]|[_ ->]]]]]
    end.
    + apply supports_lor_l, supports_lor_l, SUPPORT_DIMMABLE_transition.
    + apply supports_lor_l, SUPPORT_DIMMABLE_transition.
    + do 3 apply supports_lor_l. apply SUPPORT_DIMMABLE_transition.
    + apply SUPPORT_DIMMABLE_transition.
    + apply SUPPORT_ON_OFF_transition.
  - cbv zeta in Hfeatures.
    bind_case Hfeatures hascolor.
    destruct (truthy hascolor); simplify_eq.
    + apply supports_lor_l, supports_lor_r, supports_refl.
    + apply supports_lor_r, supports_refl.
Qed.

(** X4. The classifier and the light platform agree on the light types:
    a record whose type is one of those by which [component] accepts a
    light, and for whose unique id neither configuration names a type, is
    classified "light", and [Light.__init__] gives it the feature set that
    [SUPPORTED_TYPES] has for that type, never the fallback; that set has
    the brightness, flash and transition bits. *)
Theorem classified_light_has_its_type_features (config : Config)
    (platform_config : json) (device : gmap string json) (u type : string)
    (Huid : device !! "uniqueid" = Some (JStr u))
    (Hoverride : ∀ device_config t,
       CONF_DEVICE_CONFIG config = Some device_config →
       device_config !! u ≠ Some (Some t))
    (Hplatform : Light.configured_type platform_config (JStr u) = inr JNull)
    (Htype : device !! "type" = Some (JStr type))
    (Hlight : type ∈ LIGHT_TYPES) :
  component config "lights" (JObj device) = inr (Some "light")
  ∧ ∃ features,
      Light.SUPPORTED_TYPES !! type = Some features
      ∧ Light.supported_features platform_config (JObj device)
        = inr features
      ∧ supports features SUPPORT_BRIGHTNESS
      ∧ supports features SUPPORT_FLASH
      ∧ supports features SUPPORT_TRANSITION.
Proof.
  assert (∃ features,
            Light.SUPPORTED_TYPES !! type = Some features
            ∧ supports features Light.SUPPORT_DIMMABLE) as (f & Hf & Hdim).
  { unfold LIGHT_TYPES in Hlight.
    repeat (apply elem_of_cons in Hlight as [->|Hlight]);
      [| | | |by apply elem_of_nil in Hlight]; eexists; (split; [reflexivity|]).
    - apply supports_lor_l, supports_lor_l, supports_refl.
    - do 3 apply supports_lor_l. apply supports_refl.
    - apply supports_refl.
    - apply supports_lor_l, supports_refl. }
  split.
  - unfold component. cbn. rewrite Huid. cbn.
    destruct (CONF_DEVICE_CONFIG config) as [dc|] eqn:Hdc; cbn.
    + destruct (dc !! u) as [[t|]|] eqn:Hu;
        [by destruct (Hoverride dc t)| |]; cbn; rewrite Htype; cbn.
      all: unfold LIGHT_TYPES in Hlight.
      all: repeat (apply elem_of_cons in Hlight as [->|Hlight]); try done.
      all: by apply elem_of_nil in Hlight.
    + rewrite Htype. cbn. unfold LIGHT_TYPES in Hlight.
      repeat (apply elem_of_cons in Hlight as [->|Hlight]); try done.
      by apply elem_of_nil in Hlight.
  - exists f. split; [done|]. split.
    + unfold Light.supported_features.
      cbn -[Light.SUPPORTED_TYPES Light.configured_type].
      rewrite Huid. cbn -[Light.SUPPORTED_TYPES Light.configured_type].
      rewrite Hplatform. cbn -[Light.SUPPORTED_TYPES Light.configured_type].
      rewrite Htype. cbn -[Light.SUPPORTED_TYPES Light.configured_type].
      by rewrite Hf.
    + split; [|split]; apply (supports_trans _ _ _ Hdim).
      * apply SUPPORT_DIMMABLE_brightness.
      * apply supports_lor_l, supports_lor_l, supports_refl.
      * apply SUPPORT_DIMMABLE_transition.
Qed.
End LightFeatures.

(** ** The registry *)

Lemma lookup_entry_delitem (w : World) (dclass device_id : string)
    (inner : gmap string (option nat)) (k i : string) :
  _devices w !! dclass = Some inner →
  lookup_entry (set_devices (<[dclass := delete device_id inner]>) w) k i
  = if decide (k = dclass ∧ i = device_id) then Absent
    else lookup_entry w k i.
Proof.
  intros Hin. unfold lookup_entry, set_devices; cbn.
  destruct (decide (k = dclass)) as [->|Hk].
  - rewrite lookup_insert_eq, Hin.
    destruct (decide (i = device_id)) as [->|Hi].
    + rewrite lookup_delete_eq, decide_True; done.
    + rewrite lookup_delete_ne, decide_False; [done|tauto|done].
  - rewrite lookup_insert_ne, decide_False; [done|tauto|done].
Qed.

Lemma handle_stored_entry (dclass device_id : string) (obj : nat) (w : World)
    (k i : string) :
  lookup_entry (handle_stored dclass device_id obj w) k i
  = if decide (k = dclass ∧ i = device_id) then Live obj
    else lookup_entry w k i.
Proof.
  unfold handle_stored, atomically. cbn.
  destruct (_devices w !! dclass) as [inner|] eqn:Hin; cbn.
  - rewrite Hin. cbn. by rewrite lookup_entry_setitem.
  - rewrite lookup_insert_eq. cbn.
    rewrite lookup_entry_setitem by (cbn; apply lookup_insert_eq).
    case_decide; [done|]. by rewrite lookup_entry_setdefault.
Qed.

Lemma handle_stored_frame (dclass device_id : string) (obj : nat)
    (w : World) :
  _futures (handle_stored dclass device_id obj w) = _futures w
  ∧ futures (handle_stored dclass device_id obj w) = futures w
  ∧ entities (handle_stored dclass device_id obj w) = entities w
  ∧ _dying (handle_stored dclass device_id obj w) = _dying w.
Proof.
  unfold handle_stored, atomically. cbn.
  destruct (_devices w !! dclass) as [inner|] eqn:Hin; cbn.
  - by rewrite Hin.
  - by rewrite lookup_insert_eq.
Qed.

Lemma run_register_device_fresh (w : World) (dclass : string) (obj : nat)
    (e : Entity.t) (script : list turn) :
  entities w !! obj = Some e →
  dclass ≠ "" →
  (∀ h, lookup_entry w dclass (Entity.id e) ≠ Live h) →
  run (register_device dclass obj) w script
  = observe [Log DEBUG "Stored device: [%s][%s]"]
      (run (resolve_slot e obj) (handle_stored dclass (Entity.id e) obj w)
           script).
Proof.
  intros Hobj Hd Hfresh. unfold register_device, handle_stored, atomically.
  cbn -[resolve_slot].
  destruct (String.eqb_spec dclass ""); [done|]. cbn -[resolve_slot].
  rewrite Hobj. cbn -[resolve_slot].
  destruct (_devices w !! dclass) as [inner|] eqn:Hin; cbn -[resolve_slot].
  - destruct (lookup_entry w dclass (Entity.id e)) eqn:Hentry;
      [| |by destruct (Hfresh obj0)].
    all: cbn -[resolve_slot]; rewrite Hin; cbn -[resolve_slot]; reflexivity.
  - unfold lookup_entry at 1. cbn -[resolve_slot].
    rewrite lookup_insert_eq. cbn -[resolve_slot].
    rewrite lookup_empty. cbn -[resolve_slot].
    rewrite lookup_insert_eq. reflexivity.
Qed.

Lemma run_register_device_pending_slot (w : World) (dclass uid : string)
    (obj f : nat) (e : Entity.t) (script : list turn) :
  entities w !! obj = Some e →
  dclass ≠ "" →
  (∀ h, lookup_entry w dclass (Entity.id e) ≠ Live h) →
  Entity.uid e = JStr uid →
  _futures w !! uid = Some f →
  futures w !! f = Some Pending →
  run (register_device dclass obj) w script
  = mkOutcome [Log DEBUG "Stored device: [%s][%s]"]
      (set_futures (delete uid)
         (set_future_heap (<[f := Result obj]>)
            (handle_stored dclass (Entity.id e) obj w)))
      (Returned tt) script.
Proof.
  intros Hobj Hd Hfresh Huid Hslot Hpending.
  destruct (handle_stored_frame dclass (Entity.id e) obj w)
    as (Hfs & Hh & _ & _).
  rewrite (run_register_device_fresh w dclass obj e) by done.
  unfold resolve_slot. rewrite Huid. cbn -[handle_stored].
  rewrite Hfs, Hslot. cbn -[handle_stored].
  rewrite Hh, Hpending. reflexivity.
Qed.

(** X5. The rendezvous: when a handle is registered whose unique id has a
    pending slot, [register_device] stores the handle under its kind and
    id, resolves the future of the slot with the handle and removes the
    slot, so that the discovery that waits on the future gets the handle. *)
Theorem register_device_resolves_slot (w : World) (dclass uid : string)
    (obj f : nat) (e : Entity.t) (script : list turn)
    (Hobj : entities w !! obj = Some e)
    (Hd : dclass ≠ "")
    (Hfresh : ∀ h, lookup_entry w dclass (Entity.id e) ≠ Live h)
    (Huid : Entity.uid e = JStr uid)
    (Hslot : _futures w !! uid = Some f)
    (Hpending : futures w !! f = Some Pending) :
  let out := run (register_device dclass obj) w script in
  out_status out = Returned tt
  ∧ out_trace out = [Log DEBUG "Stored device: [%s][%s]"]
  ∧ lookup_entry (out_world out) dclass (Entity.id e) = Live obj
  ∧ futures (out_world out) = <[f := Result obj]> (futures w)
  ∧ futures (out_world out) !! f = Some (Result obj)
  ∧ _futures (out_world out) = delete uid (_futures w).
Proof.
  intros out. subst out.
  destruct (handle_stored_frame dclass (Entity.id e) obj w)
    as (Hfs & Hh & _ & _).
  rewrite (run_register_device_pending_slot w dclass uid obj f e) by done.
  cbn [out_status out_trace out_world].
  split; [done|]. split; [done|]. split.
  { change (lookup_entry (handle_stored dclass (Entity.id e) obj w) dclass
              (Entity.id e) = Live obj).
    by rewrite handle_stored_entry, decide_True. }
  cbn -[handle_stored]. rewrite Hfs, Hh. repeat split.
  apply list_lookup_insert_eq. by eapply lookup_lt_Some.
Qed.

(** X6. A handle that is registered after the wait of its discovery has
    timed out meets a cancelled future: [set_result] raises
    [InvalidStateError] out of [register_device], after the handle has
    been stored; the slot stays in [_futures]. *)
Theorem register_device_after_timeout (w : World) (dclass uid : string)
    (obj f : nat) (e : Entity.t) (script : list turn)
    (Hobj : entities w !! obj = Some e)
    (Hd : dclass ≠ "")
    (Hfresh : ∀ h, lookup_entry w dclass (Entity.id e) ≠ Live h)
    (Huid : Entity.uid e = JStr uid)
    (Hslot : _futures w !! uid = Some f)
    (Hcancelled : futures w !! f = Some Cancelled) :
  let out := run (register_device dclass obj) w script in
  out_status out = Raised InvalidStateError
  ∧ lookup_entry (out_world out) dclass (Entity.id e) = Live obj
  ∧ futures (out_world out) = futures w
  ∧ _futures (out_world out) = _futures w.
Proof.
  intros out.
  destruct (handle_stored_frame dclass (Entity.id e) obj w)
    as (Hfs & Hh & _ & _).
  assert (out = mkOutcome [Log DEBUG "Stored device: [%s][%s]"]
                  (handle_stored dclass (Entity.id e) obj w)
                  (Raised InvalidStateError) script) as ->.
  { subst out. rewrite (run_register_device_fresh w dclass obj e) by done.
    unfold resolve_slot. rewrite Huid. cbn -[handle_stored].
    rewrite Hfs, Hslot. cbn -[handle_stored].
    rewrite Hh, Hcancelled. reflexivity. }
  cbn [out_status out_trace out_world].
  repeat split; try done.
  by rewrite handle_stored_entry, decide_True.
Qed.

(** X7. [unregister_device] deletes the entry stored under the kind and
    the id of the handle that it is given, be it that handle, another one
    or a placeholder, and touches nothing else; when there is no such
    entry it raises [KeyError] and changes nothing. *)
Theorem unregister_device_deletes_entry (w : World) (dclass : string)
    (obj : nat) (e : Entity.t) (script : list turn)
    (Hobj : entities w !! obj = Some e)
    (Hd : dclass ≠ "") :
  let out := run (unregister_device dclass obj) w script in
  out_status out = match lookup_entry w dclass (Entity.id e) with
                   | Absent => Raised KeyError
                   | _ => Returned tt
                   end
  ∧ out_trace out = []
  ∧ out_rest out = script
  ∧ _futures (out_world out) = _futures w
  ∧ entities (out_world out) = entities w
  ∧ ∀ k i : string,
      lookup_entry (out_world out) k i
      = if decide (k = dclass ∧ i = Entity.id e) then Absent
        else lookup_entry w k i.
Proof.
  intros out. subst out. unfold unregister_device. cbn.
  destruct (String.eqb_spec dclass ""); [done|]. cbn.
  rewrite Hobj. cbn.
  assert (lookup_entry w dclass (Entity.id e) = Absent →
          ∀ k i, lookup_entry w k i
                 = if decide (k = dclass ∧ i = Entity.id e) then Absent
                   else lookup_entry w k i) as Hsame.
  { intros Ha k i. case_decide as Hki; [|done]. by destruct Hki as [-> ->]. }
  unfold lookup_entry at 1 2.
  destruct (_devices w !! dclass) as [inner|] eqn:Hin; cbn.
  - destruct (inner !! Entity.id e) as [x|] eqn:Hx; cbn.
    + repeat split; [by destruct x|].
      intros k i. by apply lookup_entry_delitem.
    + repeat split. apply Hsame. unfold lookup_entry. by rewrite Hin, Hx.
  - repeat split. apply Hsame. unfold lookup_entry. by rewrite Hin.
Qed.

(** X8. Round trip: registering a handle whose entry is not live and then
    unregistering it leaves the registry as it was, except that the entry
    of the handle is absent afterwards, whatever it was before (absent or
    a placeholder). *)
Theorem register_then_unregister (w : World) (dclass : string) (obj : nat)
    (e : Entity.t)
    (Hobj : entities w !! obj = Some e)
    (Hd : dclass ≠ "")
    (Hfresh : ∀ h, lookup_entry w dclass (Entity.id e) ≠ Live h) :
  let w1 := atomically (register_device dclass obj) w in
  let w2 := atomically (unregister_device dclass obj) w1 in
  lookup_entry w1 dclass (Entity.id e) = Live obj
  ∧ ∀ k i : string,
      lookup_entry w2 k i
      = if decide (k = dclass ∧ i = Entity.id e) then Absent
        else lookup_entry w k i.
Proof.
  intros w1 w2.
  assert (entities w1 = entities w
          ∧ ∀ k i, lookup_entry w1 k i
                   = if decide (k = dclass ∧ i = Entity.id e) then Live obj
                     else lookup_entry w k i) as [Hents H1].
  { subst w1. unfold atomically.
    rewrite (run_register_device_fresh w dclass obj e) by done.
    destruct (handle_stored_frame dclass (Entity.id e) obj w)
      as (Hfs & Hh & Hents & _).
    pose proof (handle_stored_entry dclass (Entity.id e) obj w) as Hentry.
    unfold resolve_slot.
    destruct (pykey_of (Entity.uid e)) as [uid| |]; cbn -[handle_stored];
      try done.
    destruct (_futures (handle_stored dclass (Entity.id e) obj w) !! uid)
      as [f|]; cbn -[handle_stored]; try done.
    destruct (futures (handle_stored dclass (Entity.id e) obj w) !! f)
      as [[| |]|]; cbn -[handle_stored]; done. }
  split; [by rewrite H1, decide_True|].
  intros k i. subst w2. unfold atomically.
  assert (entities w1 !! obj = Some e) as Hobj1 by by rewrite Hents.
  assert (lookup_entry w1 dclass (Entity.id e) ≠ Absent) as Hne
    by by rewrite H1, decide_True.
  destruct (lookup_entry_Some w1 dclass (Entity.id e) Hne)
    as (inner & Hin & [x Hx]).
  unfold unregister_device. cbn.
  destruct (String.eqb_spec dclass ""); [done|]. cbn.
  rewrite Hobj1. cbn. rewrite Hin, Hx. cbn.
  rewrite (lookup_entry_delitem w1 dclass (Entity.id e) inner) by done.
  case_decide; [done|]. rewrite H1. by rewrite decide_False.
Qed.

(** ** The router *)

(** X9. A frame without the key "r", or without the key "id", is
    discarded with one warning: no request is made and the shared state is
    not touched. *)
Theorem router_discards_malformed_frame (config : Config)
    (message : gmap string json) (w : World) (script : list turn)
    (Hmissing : message !! "r" = None ∨ message !! "id" = None) :
  ∃ warning : string,
    run (_ws_handle_message config (JObj message)) w script
    = mkOutcome [Log WARNING warning] w (Returned tt) script
    ∧ warning = (if decide (message !! "r" = None)
                 then "Message without dclass: %s"
                 else "Message without destination: %s").
Proof.
  unfold _ws_handle_message. rewrite run_try_except.
  destruct (message !! "r") as [r|] eqn:Hr.
  - destruct Hmissing as [|Hid]; [done|].
    eexists. split; [|by rewrite decide_False].
    cbn -[_find_unknown_device]. rewrite Hr. cbn -[_find_unknown_device].
    rewrite Hid. reflexivity.
  - eexists. split; [|by rewrite decide_True].
    cbn -[_find_unknown_device]. rewrite Hr. reflexivity.
Qed.



(** X11. An event for a device whose entry holds a handle is handed to
    [handle_message] of that handle, with no request to the bridge; an
    exception of the handler is caught by the router. *)
Theorem router_delivers_to_live_handle (config : Config)
    (message : gmap string json) (dclass device_id : string) (obj : nat)
    (w : World) (script : list turn)
    (Hr : message !! "r" = Some (JStr dclass))
    (Hid : message !! "id" = Some (JStr device_id))
    (Hlive : lookup_entry w dclass device_id = Live obj) :
  run (_ws_handle_message config (JObj message)) w script
  = observe [Log DEBUG "Finding device: [%s][%s]"]
      (run (try_except (handle_message obj (JObj message)) router_except)
           w script).
Proof.
  unfold _ws_handle_message.
  rewrite run_try_except. cbn -[_find_unknown_device handle_message].
  rewrite Hr. cbn -[_find_unknown_device handle_message].
  rewrite Hid. cbn -[_find_unknown_device handle_message].
  rewrite Hlive. cbn -[_find_unknown_device handle_message].
  rewrite then_catch_observe, <- run_try_except. reflexivity.
Qed.

(** X12. When the fetch of an unknown device fails, [get] returns [False],
    the classifier raises on it, and the router logs the exception and
    drops the event; the placeholder that was stored before the fetch
    stays, so the device is not looked up again. *)
Theorem router_failed_fetch_leaves_placeholder (config : Config)
    (device_config : gmap string (option string))
    (message : gmap string json) (dclass device_id : string)
    (w : World) (o1 : World → World) (rest : list turn)
    (Hconfig : CONF_DEVICE_CONFIG config = Some device_config)
    (Hr : message !! "r" = Some (JStr dclass))
    (Hid : message !! "id" = Some (JStr device_id))
    (Hd : dclass ≠ "") (Hi : device_id ≠ "")
    (Habsent : lookup_entry w dclass device_id = Absent) :
  run (_ws_handle_message config (JObj message)) w
      (mkTurn (Raises ClientError) o1 :: rest)
  = mkOutcome
      [Log DEBUG "Finding device: [%s][%s]";
       Log DEBUG "Finding unknown device: [%s][%s]";
       Awaited (Action GET
                  (_http_address config (dclass +:+ "/" +:+ device_id))
                  None 10);
       Log ERROR "Error getting deCONZ data from %s.";
       Log ERROR "Handle message exception: %s"]
      (o1 (placeholder_stored dclass device_id w)) (Returned tt) rest
  ∧ lookup_entry (placeholder_stored dclass device_id w) dclass device_id
    = Placeholder.
Proof.
  split; [|apply placeholder_stored_entry].
  rewrite (run__ws_handle_message_absent config message dclass device_id)
    by done.
  unfold _find_unknown_device, classify_and_wait, component.
  rewrite Hconfig.
  destruct (String.eqb_spec dclass ""); [done|].
  destruct (String.eqb_spec device_id ""); [done|].
  unfold placeholder_stored, atomically. cbn.
  destruct (_devices w !! dclass) as [inner|] eqn:Hin; cbn.
  - rewrite Hin. cbn. reflexivity.
  - rewrite lookup_insert_eq. cbn. reflexivity.
Qed.

(** ** Discovery *)

Lemma run__find_unknown_device_classified (config : Config)
    (dclass device_id uid : string) (device : json) (comp : option string)
    (f : nat) (w : World) (o1 o2 o3 : World → World) (script : list turn) :
  dclass ≠ "" → device_id ≠ "" →
  component config dclass device = inr comp →
  classified comp = true →
  py_getitem device "uniqueid" = inr (JStr uid) →
  let w1 := o3 (o2 (o1 (placeholder_stored dclass device_id w))) in
  let setup := open_slot (default "" comp) uid device_id device in
  _futures (atomically setup w1) !! uid = Some f →
  run (_find_unknown_device config dclass device_id) w
      (mkTurn (HttpResponse 200) o1 :: mkTurn (Body device) o2
       :: mkTurn Resumed o3 :: script)
  = observe (fetch_trace config dclass device_id
             ++ out_trace (run setup w1 []))
      (run (wait_for_setup f) (atomically setup w1) script).
Proof.
  intros Hd Hi Hcomp Hclassified Huid w1 setup Hslot.
  rewrite run__find_unknown_device_fetch by done.
  unfold classify_and_wait. rewrite Hcomp. cbn [pure mbind prog_bind bind].
  rewrite Hclassified, Huid. cbn [pure mbind prog_bind bind pykey_of].
  change (bind ?p ?k) with (p ≫= k). rewrite run_bind, run_open_slot.
  unfold then_run. cbn [out_status out_trace out_world out_rest].
  fold w1. fold setup.
  change (run (read ≫= ?k) ?w0 ?s) with (run (k w0) w0 s).
  cbv beta. rewrite Hslot.
  rewrite !observe_observe. reflexivity.
Qed.

Lemma open_slot_fresh (comp uid device_id : string) (device : json)
    (w : World) :
  _futures w !! uid = None →
  atomically (open_slot comp uid device_id device) w
  = set_futures (<[uid := length (futures w)]>)
      (set_future_heap (λ h, h ++ [Pending])%list w)
  ∧ out_trace (run (open_slot comp uid device_id device) w [])
    = [AddJob comp DOMAIN ("sensors", device_id, device)].
Proof.
  intros Hnone. unfold atomically, open_slot. cbn. by rewrite Hnone.
Qed.

Lemma open_slot_joined (comp uid device_id : string) (device : json)
    (w : World) (f : nat) :
  _futures w !! uid = Some f →
  atomically (open_slot comp uid device_id device) w = w
  ∧ out_trace (run (open_slot comp uid device_id device) w []) = [].
Proof.
  intros Hsome. unfold atomically, open_slot. cbn. by rewrite Hsome.
Qed.

(** X13. A discovery whose record is classified waits on the future of
    the slot of the record's unique id; when the other tasks have resolved
    that future by the time the wait ends, the discovery returns the
    handle that the future holds, and writes nothing after the wait. *)
Theorem discovery_returns_resolved_handle (config : Config)
    (dclass device_id uid : string) (device : json) (comp : option string)
    (f obj : nat) (w : World) (o1 o2 o3 o4 : World → World)
    (rest : list turn)
    (Hd : dclass ≠ "") (Hi : device_id ≠ "")
    (Hcomp : component config dclass device = inr comp)
    (Hclassified : classified comp = true)
    (Huid : py_getitem device "uniqueid" = inr (JStr uid)) :
  let w1 := o3 (o2 (o1 (placeholder_stored dclass device_id w))) in
  let w2 := atomically (open_slot (default "" comp) uid device_id device) w1 in
  _futures w2 !! uid = Some f →
  futures (o4 w2) !! f = Some (Result obj) →
  let out := run (_find_unknown_device config dclass device_id) w
                 (mkTurn (HttpResponse 200) o1 :: mkTurn (Body device) o2
                  :: mkTurn Resumed o3 :: mkTurn Resumed o4 :: rest) in
  out_status out = Returned (Handle obj)
  ∧ out_world out = o4 w2
  ∧ out_rest out = rest
  ∧ last (out_trace out) = Some (Awaited (WaitFor f 10)).
Proof.
  intros w1 w2 Hslot Hresolved out. subst out.
  rewrite (run__find_unknown_device_classified config dclass device_id uid
             device comp f) by done.
  fold w1. fold w2.
  generalize (fetch_trace config dclass device_id
              ++ out_trace
                   (run (open_slot (default "" comp) uid device_id device)
                        w1 []))%list.
  intros tr. unfold wait_for_setup. cbn -[last]. rewrite Hresolved.
  cbn -[last]. repeat split. apply last_snoc.
Qed.

(** X14. A discovery starts at most one platform setup for a unique id.
    When [_futures] already has a slot for the unique id of the fetched
    record, the discovery hands nothing to the setup sink, creates no
    future and waits on the future of that slot.  When there is none, it
    creates one pending future, stores it under the unique id, hands the
    record to the setup sink once and waits on the new future. *)
Theorem discovery_opens_at_most_one_slot (config : Config)
    (dclass device_id uid : string) (device : json) (comp : option string)
    (w : World) (o1 o2 o3 : World → World)
    (Hd : dclass ≠ "") (Hi : device_id ≠ "")
    (Hcomp : component config dclass device = inr comp)
    (Hclassified : classified comp = true)
    (Huid : py_getitem device "uniqueid" = inr (JStr uid)) :
  let w1 := o3 (o2 (o1 (placeholder_stored dclass device_id w))) in
  let out := run (_find_unknown_device config dclass device_id) w
                 [mkTurn (HttpResponse 200) o1; mkTurn (Body device) o2;
                  mkTurn Resumed o3] in
  let f := length (futures w1) in
  (∀ f', _futures w1 !! uid = Some f' →
         out_trace out = fetch_trace config dclass device_id
         ∧ waiting_for out = Some (WaitFor f' 10)
         ∧ out_world out = w1)
  ∧ (_futures w1 !! uid = None →
     out_trace out
     = (fetch_trace config dclass device_id
        ++ [AddJob (default "" comp) DOMAIN ("sensors", device_id, device)])%list
     ∧ waiting_for out = Some (WaitFor f 10)
     ∧ _futures (out_world out) = <[uid := f]> (_futures w1)
     ∧ futures (out_world out) = (futures w1 ++ [Pending])%list
     ∧ futures (out_world out) !! f = Some Pending
     ∧ _devices (out_world out) = _devices w1).
Proof.
  intros w1 out f. subst out. split.
  - intros f' Hslot.
    destruct (open_slot_joined (default "" comp) uid device_id device w1 f'
                Hslot) as [Hw Htr].
    rewrite (run__find_unknown_device_classified config dclass device_id uid
               device comp f') by (try done; fold w1; by rewrite Hw).
    fold w1. rewrite Hw, Htr. cbn. done.
  - intros Hslot.
    destruct (open_slot_fresh (default "" comp) uid device_id device w1 Hslot)
      as [Hw Htr].
    rewrite (run__find_unknown_device_classified config dclass device_id uid
               device comp f)
      by (try done; fold w1; rewrite Hw; cbn; apply lookup_insert_eq).
    fold w1. rewrite Hw, Htr. cbn.
    repeat split. unfold f. by rewrite lookup_app_r, Nat.sub_diag.
Qed.



Section Frame.
Variables (dclass device_id : string) (v : entry).
Local Abbreviation P := (entry_is dclass device_id v).

Lemma keeps__find_unknown_device_frame (config : Config) (d i : string)
    (w : World) :
  ¬ (d = dclass ∧ i = device_id) →
  P w → keeps P (_find_unknown_device config d i) w.
Proof.
  intros Hne Hw. unfold _find_unknown_device, classify_and_wait.
  repeat first
    [ apply keeps_devices_setitem; [assumption|tauto]
    | apply keeps_get; assumption
    | apply keeps_open_slot; assumption
    | apply keeps_wait_for; assumption
    | keeps_step ].
Qed.

Lemma keeps_refresh_device_frame (config : Config) (d : string)
    (item : string * json) (w : World) :
  (lookup_entry w d item.1 = Absent → ¬ (d = dclass ∧ item.1 = device_id)) →
  P w → keeps P (refresh_device config d item) w.
Proof.
  intros Hne Hw. unfold refresh_device. destruct item as [i device].
  cbn [fst] in Hne.
  apply keeps_read.
  destruct (_devices w !! d) as [inner|] eqn:Hd; [|done].
  destruct (inner !! i) as [x|] eqn:Hi; [done|].
  assert (lookup_entry w d i = Absent) as Habsent
    by (unfold lookup_entry; by rewrite Hd, Hi).
  repeat first
    [ apply keeps_devices_setitem; [assumption|tauto]
    | keeps_step ].
Qed.
End Frame.

Section LiveKept.
Variables (dclass device_id : string) (h : nat).
Local Abbreviation P := (entry_is dclass device_id (Live h)).

Lemma live_elsewhere (w : World) (d i : string) :
  P w → lookup_entry w d i = Absent → ¬ (d = dclass ∧ i = device_id).
Proof. unfold entry_is. intros Hw Ha [-> ->]. congruence. Qed.

Lemma keeps_live__ws_handle_message (config : Config) (message : json)
    (w : World) :
  P w → keeps P (_ws_handle_message config message) w.
Proof.
  intros Hw. unfold _ws_handle_message, str_key.
  repeat first
    [ apply keeps__find_unknown_device_frame;
        [eapply live_elsewhere; eassumption|assumption]
    | apply keeps_handle_message; assumption
    | keeps_step ].
Qed.

Lemma keeps_live_for_each {A : Type} (l : list A) (body : A → prog unit)
    (w : World) :
  (∀ x w', P w' → keeps P (body x) w') →
  P w → keeps P (for_each l body) w.
Proof.
  intros Hbody. revert w; induction l as [|x l IH]; intros w Hw; [done|].
  cbn [for_each]. apply keeps_bind; [done|by apply Hbody|].
  intros _ w' Hw'. by apply IH.
Qed.

Lemma keeps_live_refresh_once (config : Config) (w : World) :
  P w → keeps P (refresh_once config) w.
Proof.
  intros Hw. unfold refresh_once.
  apply keeps_bind; [done| |done].
  apply keeps_live_for_each; [|done]. intros d w' Hw'. unfold refresh_dclass.
  repeat first
    [ apply keeps_get; assumption
    | apply keeps_live_for_each;
        [intros; apply keeps_refresh_device_frame;
           [by apply live_elsewhere|]|];
      assumption
    | keeps_step ].
Qed.

Lemma keeps_live_refresher_task (fuel : nat) (config : Config) (w : World) :
  P w → keeps P (refresher_task fuel config) w.
Proof.
  revert w; induction fuel as [|fuel IH]; intros w Hw; [done|].
  cbn [refresher_task].
  apply keeps_bind; [done|by apply keeps_live_refresh_once|].
  intros _ w' Hw'. by apply IH.
Qed.
End LiveKept.

(** X16. A discovery writes one entry of the registry only, the one of
    the kind and id that it is asked to find: every other entry, be it
    absent, a placeholder or a handle, is after the run what it was
    before, whatever the answers are and as long as the other tasks leave
    it alone. *)
Theorem discovery_touches_one_entry (config : Config)
    (dclass device_id k i : string) (v : entry) (w : World)
    (script : list turn)
    (Hother : ¬ (k = dclass ∧ i = device_id))
    (Hw : lookup_entry w k i = v)
    (Hothers : others_keep (entry_is k i v) script) :
  lookup_entry (out_world (run (_find_unknown_device config dclass device_id)
                               w script)) k i = v.
Proof.
  apply (keeps_run (entry_is k i v)); [done| |done].
  apply keeps__find_unknown_device_frame; [|done].
  intros [-> ->]. tauto.
Qed.

(** X17. Once an entry holds a handle, neither the router nor the refresh
    loop changes it: whatever frame is routed, whatever the bridge
    answers and for however many passes, the entry holds the same handle
    afterwards, as long as the other tasks keep it.  Both store their
    placeholder only where they have just found no entry. *)
Theorem live_entry_is_stable (config : Config) (dclass device_id : string)
    (h fuel : nat) (message : json) (w : World) (script : list turn)
    (Hw : lookup_entry w dclass device_id = Live h)
    (Hothers : others_keep (entry_is dclass device_id (Live h)) script) :
  lookup_entry (out_world (run (_ws_handle_message config message) w script))
               dclass device_id = Live h
  ∧ lookup_entry (out_world (run (refresher_task fuel config) w script))
                 dclass device_id = Live h.
Proof.
  split; apply (keeps_run (entry_is dclass device_id (Live h))); try done.
  - by apply keeps_live__ws_handle_message.
  - by apply keeps_live_refresher_task.
Qed.

(** ** Events and commands of a handle *)

(** X18. An event with a [config] object that has a [battery] field sets
    [battery_level] in the state of the handle to that value and notifies
    the presentation layer; nothing else of the event is used: a state
    change carried by the same event is not merged. *)
Theorem handle_message_stores_battery (w : World) (self : nat) (e : Entity.t)
    (old message config : gmap string json) (battery : json)
    (script : list turn)
    (Hself : entities w !! self = Some e)
    (Hold : Entity._state e = JObj old)
    (Hconfig : message !! "config" = Some (JObj config))
    (Hbattery : config !! "battery" = Some battery) :
  run (handle_message self (JObj message)) w script
  = mkOutcome [Log DEBUG "Default message handler."; ScheduleUpdate self]
              (set_entities
                 (<[self := Entity.set_state
                              (JObj (<["battery_level" := battery]> old)) e]>)
                 w)
              (Returned tt) script.
Proof.
  unfold handle_message. cbn. rewrite Hconfig. cbn. rewrite Hbattery. cbn.
  rewrite Hself. cbn. rewrite Hold. reflexivity.
Qed.

(** X19. An event with a [config] object without [battery], and an event
    without [config] whose [e] is missing or is not "changed", change
    nothing; the presentation layer is notified all the same.  In the
    first case a state change carried by the event is lost. *)
Theorem handle_message_ignores_other_events (w : World) (self : nat)
    (message : gmap string json) (script : list turn)
    (Hmessage :
       (∃ config, message !! "config" = Some (JObj config)
                  ∧ config !! "battery" = None)
       ∨ (message !! "config" = None
          ∧ ∀ e, message !! "e" = Some e → e ≠ JStr "changed")) :
  run (handle_message self (JObj message)) w script
  = mkOutcome [Log DEBUG "Default message handler."; ScheduleUpdate self]
              w (Returned tt) script.
Proof.
  unfold handle_message. cbn.
  destruct Hmessage as [(config & Hconfig & Hbattery)|[Hconfig He]].
  - rewrite Hconfig. cbn. rewrite Hbattery. reflexivity.
  - rewrite Hconfig. cbn. destruct (message !! "e") as [e|] eqn:Hme; cbn.
    + destruct (is_str "changed" e) eqn:Hstr; [|reflexivity].
      exfalso. apply (He e eq_refl). by apply is_str_true.
    + reflexivity.
Qed.

(** X20. A "changed" event without a [state] object (and without
    [config]) makes [handle_message] raise [KeyError]: the state is not
    changed and the presentation layer is not notified. *)
Theorem handle_message_changed_without_state (w : World) (self : nat)
    (message : gmap string json) (script : list turn)
    (Hconfig : message !! "config" = None)
    (He : message !! "e" = Some (JStr "changed"))
    (Hstate : message !! "state" = None) :
  run (handle_message self (JObj message)) w script
  = mkOutcome [Log DEBUG "Default message handler.";
               Log DEBUG "Updating state."]
              w (Raised KeyError) script.
Proof.
  unfold handle_message. cbn. rewrite Hconfig. cbn. rewrite He. cbn.
  rewrite Hstate. reflexivity.
Qed.


(** ** The REST layer *)

Lemma run__req_ok (config : Config) (action : verb) (node : string)
    (data : option json) (body : json) (w : World)
    (o1 o2 o3 : World → World) (rest : list turn) :
  run (_req config action node data) w
      (mkTurn (HttpResponse 200) o1 :: mkTurn (Body body) o2
       :: mkTurn Resumed o3 :: rest)
  = mkOutcome [Awaited (Action action (_http_address config node) data 10);
               Awaited ResponseJson; Awaited ResponseRelease]
              (o3 (o2 (o1 w))) (Returned body) rest.
Proof. reflexivity. Qed.

(** X22. [_req] catches [TimeoutError] and [ClientError] only.  Any other
    exception, a cancellation for one, leaves [_req] as it is: raised by
    the call, there is no response to release; raised while the body is
    decoded, the response is released first. *)
Theorem _req_propagates_other_exceptions (config : Config) (action : verb)
    (node : string) (data : option json) (e : exn) (w : World)
    (o1 o2 o3 : World → World) (rest : list turn)
    (Htimeout : e ≠ TimeoutError) (Hclient : e ≠ ClientError) :
  let url := _http_address config node in
  run (_req config action node data) w (mkTurn (Raises e) o1 :: rest)
  = mkOutcome [Awaited (Action action url data 10)] (o1 w) (Raised e) rest
  ∧ run (_req config action node data) w
        (mkTurn (HttpResponse 200) o1 :: mkTurn (Raises e) o2
         :: mkTurn Resumed o3 :: rest)
    = mkOutcome [Awaited (Action action url data 10); Awaited ResponseJson;
                 Awaited ResponseRelease]
                (o3 (o2 (o1 w))) (Raised e) rest.
Proof.
  intros url. split; unfold _req; cbn; by destruct e.
Qed.

(** X23. The two services make one PUT to the node "config", with
    [{"permitjoin": duration}] and with [{"otauactive": enable}], and
    return [None] whether the bridge has accepted the request or the
    request has failed: the caller of the service cannot tell. *)
Theorem services_report_no_failure (config : Config) (duration : Z)
    (enable : bool) (body : json) (w : World) (o1 o2 o3 : World → World)
    (rest : list turn) :
  let url := _http_address config "config" in
  let permitjoin := Some (JObj {[ "permitjoin" := JNum duration ]}) in
  let otauactive := Some (JObj {[ "otauactive" := JBool enable ]}) in
  run (permit config duration) w
      (mkTurn (HttpResponse 200) o1 :: mkTurn (Body body) o2
       :: mkTurn Resumed o3 :: rest)
  = mkOutcome [Awaited (Action PUT url permitjoin 10); Awaited ResponseJson;
               Awaited ResponseRelease]
              (o3 (o2 (o1 w))) (Returned tt) rest
  ∧ run (permit config duration) w (mkTurn (Raises ClientError) o1 :: rest)
    = mkOutcome [Awaited (Action PUT url permitjoin 10);
                 Log ERROR "Error getting deCONZ data from %s."]
                (o1 w) (Returned tt) rest
  ∧ run (otau config enable) w
        (mkTurn (HttpResponse 200) o1 :: mkTurn (Body body) o2
         :: mkTurn Resumed o3 :: rest)
    = mkOutcome [Awaited (Action PUT url otauactive 10); Awaited ResponseJson;
                 Awaited ResponseRelease]
                (o3 (o2 (o1 w))) (Returned tt) rest
  ∧ run (otau config enable) w (mkTurn (Raises TimeoutError) o1 :: rest)
    = mkOutcome [Awaited (Action PUT url otauactive 10);
                 Log ERROR "Timeout getting deCONZ data from %s."]
                (o1 w) (Returned tt) rest.
Proof. intros url permitjoin otauactive. repeat split. Qed.

(** X24. A command of a handle is one PUT to [<kind>/<id><endpoint>].
    The presentation layer is notified exactly when the request succeeds
    with a body that is true in Python's sense; after a status other than
    200, a client error or a timeout the command returns without a
    notification and without an exception. *)
Theorem command_notifies_only_on_success (config : Config) (self : nat)
    (e : Entity.t) (data body : json) (endpoint text : string) (status : Z)
    (w : World) (o1 o2 o3 : World → World) (rest : list turn)
    (Hself : entities w !! self = Some e)
    (Hstatus : status ≠ 200%Z) :
  let url := _http_address config (Entity.dclass e +:+ "/" +:+ Entity.id e
                                   +:+ endpoint) in
  run (_async_put_state config self data endpoint) w
      (mkTurn (HttpResponse 200) o1 :: mkTurn (Body body) o2
       :: mkTurn Resumed o3 :: rest)
  = mkOutcome ([Log DEBUG "Setting state: %s";
                Awaited (Action PUT url (Some data) 10);
                Awaited ResponseJson; Awaited ResponseRelease]
               ++ if truthy body then [ScheduleUpdate self] else [])
              (o3 (o2 (o1 w))) (Returned tt) rest
  ∧ run (_async_put_state config self data endpoint) w
        (mkTurn (HttpResponse status) o1 :: mkTurn (Text text) o2
         :: mkTurn Resumed o3 :: rest)
    = mkOutcome [Log DEBUG "Setting state: %s";
                 Awaited (Action PUT url (Some data) 10);
                 Awaited (ResponseText 10);
                 Log ERROR "deCONZ returned http status %d, response %s";
                 Awaited ResponseRelease]
                (o3 (o2 (o1 w))) (Returned tt) rest
  ∧ run (_async_put_state config self data endpoint) w
        (mkTurn (Raises ClientError) o1 :: rest)
    = mkOutcome [Log DEBUG "Setting state: %s";
                 Awaited (Action PUT url (Some data) 10);
                 Log ERROR "Error getting deCONZ data from %s."]
                (o1 w) (Returned tt) rest
  ∧ run (_async_put_state config self data endpoint) w
        (mkTurn (Raises TimeoutError) o1 :: rest)
    = mkOutcome [Log DEBUG "Setting state: %s";
                 Awaited (Action PUT url (Some data) 10);
                 Log ERROR "Timeout getting deCONZ data from %s."]
                (o1 w) (Returned tt) rest.
Proof.
  intros url.
  assert (bool_decide (status ≠ 200%Z) = true) as Hne
    by by apply bool_decide_eq_true_2.
  unfold _async_put_state, put, _req, deref. cbn. rewrite Hself. cbn.
  rewrite Hne. split; [|done].
  change (bool_decide (200%Z ≠ 200%Z)) with false. cbn.
  by destruct (truthy body).
Qed.

(** ** The listener *)

(** X25. The port of the websocket is the [websocketport] of the bridge's
    configuration when the fetch succeeds and the configuration has one,
    and 443 otherwise: when the key is missing, when the configuration is
    empty, and when the fetch fails with a client error or a timeout. *)
Theorem listener_port (config : Config) (fuel : nat)
    (conf : gmap string json) (w : World) (o1 o2 o3 : World → World)
    (Hfailed : _dying (o1 w) = false)
    (Hfetched : _dying (o3 (o2 (o1 w))) = false) :
  waiting_for (run (_ws_listener config (S fuel)) w
                   [mkTurn (HttpResponse 200) o1; mkTurn (Body (JObj conf)) o2;
                    mkTurn Resumed o3])
  = Some (Connect (CONF_HOST config)
                  (default (JNum 443) (conf !! "websocketport")))
  ∧ waiting_for (run (_ws_listener config (S fuel)) w
                     [mkTurn (Raises ClientError) o1])
    = Some (Connect (CONF_HOST config) (JNum 443))
  ∧ waiting_for (run (_ws_listener config (S fuel)) w
                     [mkTurn (Raises TimeoutError) o1])
    = Some (Connect (CONF_HOST config) (JNum 443)).
Proof.
  split; [|split].
  - unfold _ws_listener, get. rewrite run_bind, run__req_ok.
    unfold then_run, waiting_for. cbn.
    destruct (map_to_list conf) as [|kv l] eqn:Hl.
    + apply map_to_list_empty_iff in Hl as ->. cbn.
      rewrite Hfetched. reflexivity.
    + cbn. rewrite Hfetched. cbn. by destruct (conf !! "websocketport").
  - unfold _ws_listener, waiting_for. cbn. by rewrite Hfailed.
  - unfold _ws_listener, waiting_for. cbn. by rewrite Hfailed.
Qed.

Lemma run_recv_loop_frame (fuel socket : nat) (raw : string) (data : json)
    (w : World) (o : World → World) (rest : list turn) :
  well_formed (raw, data) = true →
  run (recv_loop (S fuel) socket) w (mkTurn (Frame raw (Some data)) o :: rest)
  = observe (dispatched socket (raw, data))
            (run (recv_loop fuel socket) (o w) rest).
Proof.
  unfold well_formed. cbn [fst snd]. intros [Hraw Hdata]%andb_true_iff.
  apply negb_true_iff in Hraw.
  cbn [recv_loop].
  cbn -[recv_loop]. rewrite Hraw. cbn -[recv_loop]. rewrite Hdata.
  reflexivity.
Qed.

(** X26. Every frame that is not empty and whose decoded value is true in
    Python's sense is handed to a new router task, in the order of
    arrival and none twice; the listener writes nothing meanwhile and
    waits for the next frame on the same socket. *)
Theorem listener_dispatches_every_frame (fuel socket : nat)
    (l : list (string * json)) (w : World)
    (Hfuel : length l < fuel)
    (Hframes : forallb well_formed l = true) :
  let out := run (recv_loop fuel socket) w (frames l) in
  out_trace out = concat (map (dispatched socket) l)
  ∧ out_world out = w
  ∧ waiting_for out = Some (Recv socket 20).
Proof.
  cbv zeta. revert fuel Hfuel Hframes. induction l as [|[raw data] l IH];
    intros fuel Hfuel Hframes; cbn [length] in Hfuel.
  - destruct fuel as [|fuel]; [lia|]. by cbn.
  - destruct fuel as [|fuel]; [lia|].
    cbn [forallb] in Hframes. apply andb_true_iff in Hframes as [Hf Hl].
    change (frames ((raw, data) :: l))
      with (mkTurn (Frame raw (Some data)) (λ w, w) :: frames l).
    rewrite run_recv_loop_frame by done. cbv beta.
    destruct (IH fuel ltac:(lia) Hl) as (Htr & Hw & Hwait).
    cbn [map concat]. unfold observe, waiting_for in *. cbn -[dispatched].
    rewrite Htr, Hw. split; [done|]. split; [done|].
    exact Hwait.
Qed.

(** X27. The steps of the inner loop that dispatch nothing.  An empty
    frame and a frame whose decoded value is false in Python's sense are
    skipped with a warning.  When no frame arrives within 20 units the
    listener pings; a pong within 10 units keeps the connection and the
    loop waits again on the same socket, a late pong ends the loop.  A
    frame that cannot be decoded ends the loop with [ValueError]. *)
Theorem listener_idle_steps (fuel socket : nat) (raw : string)
    (data : json) (w : World) (o o2 o3 : World → World) (rest : list turn)
    (Hraw : raw ≠ "") (Hdata : truthy data = false) :
  (∀ decoded,
     run (recv_loop (S fuel) socket) w (mkTurn (Frame "" decoded) o :: rest)
     = observe [Awaited (Recv socket 20);
                Log WARNING "Invalid data received."]
               (run (recv_loop fuel socket) (o w) rest))
  ∧ run (recv_loop (S fuel) socket) w
        (mkTurn (Frame raw (Some data)) o :: rest)
    = observe [Awaited (Recv socket 20);
               Log DEBUG "Got websocket message: %s";
               Log WARNING "Invalid json data received."]
              (run (recv_loop fuel socket) (o w) rest)
  ∧ run (recv_loop (S fuel) socket) w (mkTurn (Frame raw None) o :: rest)
    = mkOutcome [Awaited (Recv socket 20)] (o w) (Raised ValueError) rest
  ∧ run (recv_loop (S fuel) socket) w
        (mkTurn (Raises TimeoutError) o :: mkTurn Resumed o2
         :: mkTurn Resumed o3 :: rest)
    = observe [Awaited (Recv socket 20); Awaited (Ping socket);
               Awaited (WaitPong 10)]
              (run (recv_loop fuel socket) (o3 (o2 (o w))) rest)
  ∧ run (recv_loop (S fuel) socket) w
        (mkTurn (Raises TimeoutError) o :: mkTurn Resumed o2
         :: mkTurn (Raises TimeoutError) o3 :: rest)
    = mkOutcome [Awaited (Recv socket 20); Awaited (Ping socket);
                 Awaited (WaitPong 10)]
                (o3 (o2 (o w))) (Returned tt) rest.
Proof.
  apply String.eqb_neq in Hraw.
  split; [|split; [|split; [|split]]].
  - intros decoded. cbn [recv_loop]. by cbn -[recv_loop].
  - cbn [recv_loop]. cbn -[recv_loop]. rewrite Hraw. cbn -[recv_loop].
    rewrite Hdata. by cbn -[recv_loop].
  - cbn [recv_loop]. cbn -[recv_loop]. rewrite Hraw. by cbn -[recv_loop].
  - cbn [recv_loop]. by cbn -[recv_loop].
  - cbn [recv_loop]. by cbn -[recv_loop].
Qed.

(** X28. How the listener ends.  Cancelled while it waits for a frame, it
    closes the socket and returns, with no warning and no new connection.
    When the connection breaks and [_dying] is set by the time the socket
    is closed, it does not reconnect.  With [_dying] set at the loop test
    it returns without connecting. *)
Theorem listener_ends_when_killed (fuel : nat) (host : string)
    (ws_port : json) (socket : option nat) (s : nat) (w : World)
    (o1 o2 o3 : World → World) (rest : list turn)
    (Halive : _dying w = false) :
  run (connect_loop (S (S fuel)) host ws_port socket) w
      (mkTurn (Socket s) o1 :: killed :: mkTurn Resumed o3 :: rest)
  = mkOutcome [Awaited (Connect host ws_port); Awaited (Recv s 20);
               Awaited (Close s)]
              (o3 (dying (o1 w))) (Returned tt) rest
  ∧ (_dying (o3 (o2 (o1 w))) = true →
     run (connect_loop (S (S fuel)) host ws_port socket) w
         (mkTurn (Socket s) o1 :: mkTurn (Raises ConnectionClosed) o2
          :: mkTurn Resumed o3 :: rest)
     = mkOutcome [Awaited (Connect host ws_port); Awaited (Recv s 20);
                  Log WARNING "Websocket exception: %s";
                  Log WARNING "Websocket exception.Sleeping 5s and retrying.";
                  SleepNotAwaited 5; Awaited (Close s)]
                 (o3 (o2 (o1 w))) (Returned tt) rest)
  ∧ ∀ w', _dying w' = true →
          run (connect_loop (S fuel) host ws_port socket) w' rest
          = mkOutcome [] w' (Returned tt) rest.
Proof.
  split; [|split].
  - cbn [connect_loop]. cbn -[connect_loop recv_loop]. rewrite Halive.
    cbn [recv_loop]. by cbn -[connect_loop recv_loop].
  - intros Hdying. cbn [connect_loop]. cbn -[connect_loop recv_loop].
    rewrite Halive. cbn [recv_loop]. cbn -[connect_loop recv_loop].
    destruct fuel; cbn; by rewrite Hdying.
  - intros w' Hdying. cbn. by rewrite Hdying.
Qed.

Section WritesNothing.
Variable P : World → Prop.

Lemma writes_nothing__req (config : Config) (action : verb) (node : string)
    (data : option json) (w : World) :
  P w → keeps P (_req config action node data) w.
Proof. intros Hw. unfold _req. cbv zeta. repeat keeps_step. Qed.

Lemma writes_nothing_recv_loop (fuel socket : nat) (w : World) :
  P w → keeps P (recv_loop fuel socket) w.
Proof.
  revert w; induction fuel as [|fuel IH]; intros w Hw; [done|].
  cbn [recv_loop]. repeat first [ apply IH; assumption | keeps_step ].
Qed.

Lemma writes_nothing_connect_loop (fuel : nat) (host : string)
    (ws_port : json) (socket : option nat) (w : World) :
  P w → keeps P (connect_loop fuel host ws_port socket) w.
Proof.
  revert socket w; induction fuel as [|fuel IH]; intros socket w Hw;
    [done|].
  cbn [connect_loop]. unfold _ws_listener_finally.
  repeat first
    [ apply IH; assumption
    | apply writes_nothing_recv_loop; assumption
    | keeps_step ].
Qed.

Lemma writes_nothing__ws_listener (config : Config) (fuel : nat) (w : World) :
  P w → keeps P (_ws_listener config fuel) w.
Proof.
  intros Hw. unfold _ws_listener.
  repeat first
    [ apply writes_nothing__req; assumption
    | apply writes_nothing_connect_loop; assumption
    | keeps_step ].
Qed.

Lemma writes_nothing__async_put_state (config : Config) (self : nat)
    (data : json) (endpoint : string) (w : World) :
  P w → keeps P (_async_put_state config self data endpoint) w.
Proof.
  intros Hw. unfold _async_put_state, deref, put.
  repeat first [ apply writes_nothing__req; assumption | keeps_step ].
Qed.
End WritesNothing.

(** X29. The listener, the requests and the commands of a handle never
    write to the shared state: any property of it that holds at the start
    and that the other tasks keep, holds when they end or are suspended,
    whatever the answers are.  In particular a command does not change
    the state of its handle: the state changes when the event of the
    bridge arrives. *)
Theorem listener_and_commands_write_nothing (P : World → Prop)
    (config : Config) (fuel self : nat) (action : verb)
    (node endpoint : string) (data : option json) (command : json)
    (w : World) (script : list turn)
    (Hw : P w) (Hothers : others_keep P script) :
  P (out_world (run (_ws_listener config fuel) w script))
  ∧ P (out_world (run (_req config action node data) w script))
  ∧ P (out_world (run (_async_put_state config self command endpoint)
                      w script))
  ∧ P (out_world (run (Light.async_turn_off config self) w script)).
Proof.
  repeat split; apply keeps_run; try done.
  - by apply writes_nothing__ws_listener.
  - by apply writes_nothing__req.
  - by apply writes_nothing__async_put_state.
  - by apply writes_nothing__async_put_state.
Qed.

(** ** The refresh loop *)







(** ** The further properties at work on the example bridge *)

Lemma component_config_has_precedence_witness :
  component config0 "sensors" daylight = inr None
  ∧ component config_override "sensors" daylight
    = inr (Some "binary_sensor").
Proof.
  split; [vm_compute; reflexivity|].
  exact (component_config_has_precedence config_override
           {[ "00:21:2e:ff:ff-01" := Some "binary_sensor" ]}
           "sensors" "00:21:2e:ff:ff-01" "binary_sensor"
           {[ "modelid" := JStr "PHDL00";
              "uniqueid" := JStr "00:21:2e:ff:ff-01";
              "state" := JObj {[ "dark" := JBool true ]} ]}
           eq_refl eq_refl eq_refl).
Defined.

Lemma component_without_override_witness :
  component config0 "lights" bulb = inr (Some "light")
  ∧ (("lights" = "sensors" ∧ "light" = "binary_sensor"
      ∧ py_getitem bulb "modelid" = inr (JStr "lumi.sensor_magnet"))
     ∨ ("lights" = "lights" ∧ "light" = "light"
        ∧ ((∃ type, py_getitem bulb "type" = inr (JStr type)
                    ∧ type ∈ LIGHT_TYPES)
           ∨ (∃ modelid, py_getitem bulb "modelid" = inr (JStr modelid)
                         ∧ String.prefix "TRADFRI bulb" modelid = true)))).
Proof.
  assert (component config0 "lights" bulb = inr (Some "light")) as Hcomp
    by (vm_compute; reflexivity).
  split; [exact Hcomp|].
  exact (component_without_override config0 "lights" "light" bulb
           (or_intror eq_refl) Hcomp).
Defined.

Lemma every_light_supports_transitions_witness :
  @Light.supported_features distinct_bits (JObj ∅) bulb = inr 41%Z
  ∧ supports 41 32.
Proof.
  assert (@Light.supported_features distinct_bits (JObj ∅) bulb = inr 41%Z)
    as Hfeatures by (vm_compute; reflexivity).
  split; [exact Hfeatures|].
  exact (@every_light_supports_transitions distinct_bits (JObj ∅) bulb 41%Z
           Hfeatures).
Defined.

Lemma classified_light_has_its_type_features_witness :
  "Dimmable light" ∈ LIGHT_TYPES
  ∧ component config0 "lights" bulb = inr (Some "light")
  ∧ @Light.supported_features distinct_bits (JObj ∅) bulb
    = inr (@Light.SUPPORT_DIMMABLE distinct_bits).
Proof.
  assert ("Dimmable light" ∈ LIGHT_TYPES) as Hlight
    by (apply list_elem_of_In; cbn; tauto).
  assert (∀ device_config t,
            CONF_DEVICE_CONFIG config0 = Some device_config →
            device_config !! "00:17:88:01:02-0b" ≠ Some (Some t)) as Hoverride
    by (intros dc t [= <-]; rewrite lookup_empty; discriminate).
  pose proof (@classified_light_has_its_type_features distinct_bits config0
                (JObj ∅)
                {[ "type" := JStr "Dimmable light";
                   "uniqueid" := JStr "00:17:88:01:02-0b";
                   "state" := JObj {[ "on" := JBool false; "bri" := JNum 50;
                                      "ct" := JNum 300 ]} ]}
                "00:17:88:01:02-0b" "Dimmable light"
                eq_refl Hoverride eq_refl eq_refl Hlight)
    as (Hcomp & features & Htype & Hfeatures & _).
  split; [exact Hlight|]. split; [exact Hcomp|].
  vm_compute in Htype. injection Htype as <-. exact Hfeatures.
Defined.

Lemma register_device_resolves_slot_witness :
  let out := run (register_device "sensors" 0) world_awaiting [] in
  lookup_entry world_awaiting "sensors" "5" = Placeholder
  ∧ futures world_awaiting = [Pending]
  ∧ out_status out = Returned tt
  ∧ lookup_entry (out_world out) "sensors" "5" = Live 0
  ∧ futures (out_world out) = [Result 0]
  ∧ _futures (out_world out) = ∅.
Proof.
  cbv zeta.
  assert (entities world_awaiting !! 0 = Some magnet_handle) as Hobj
    by (vm_compute; reflexivity).
  assert ("sensors" ≠ "") as Hd by discriminate.
  assert (lookup_entry world_awaiting "sensors" "5" = Placeholder) as Hentry
    by (vm_compute; reflexivity).
  assert (∀ h, lookup_entry world_awaiting "sensors"
                 (Entity.id magnet_handle) ≠ Live h) as Hfresh
    by (intros h Hh; vm_compute in Hh; discriminate).
  pose proof (register_device_resolves_slot world_awaiting "sensors"
                "00:15:8d:00:01-01" 0 0 magnet_handle [] Hobj Hd Hfresh
                eq_refl ltac:(vm_compute; reflexivity)
                ltac:(vm_compute; reflexivity))
    as (Hs & _ & Hl & Hf & _ & Hslots).
  split; [exact Hentry|]. split; [vm_compute; reflexivity|].
  split; [exact Hs|]. split; [exact Hl|].
  split; [rewrite Hf|rewrite Hslots]; vm_compute; reflexivity.
Defined.

Lemma register_device_after_timeout_witness :
  let out := run (register_device "sensors" 0) world_timed_out [] in
  futures world_timed_out = [Cancelled]
  ∧ out_status out = Raised InvalidStateError
  ∧ lookup_entry (out_world out) "sensors" "5" = Live 0.
Proof.
  cbv zeta.
  assert (entities world_timed_out !! 0 = Some magnet_handle) as Hobj
    by (vm_compute; reflexivity).
  assert ("sensors" ≠ "") as Hd by discriminate.
  assert (∀ h, lookup_entry world_timed_out "sensors"
                 (Entity.id magnet_handle) ≠ Live h) as Hfresh
    by (intros h Hh; vm_compute in Hh; discriminate).
  pose proof (register_device_after_timeout world_timed_out "sensors"
                "00:15:8d:00:01-01" 0 0 magnet_handle [] Hobj Hd Hfresh
                eq_refl ltac:(vm_compute; reflexivity)
                ltac:(vm_compute; reflexivity))
    as (Hs & Hl & _).
  split; [vm_compute; reflexivity|]. split; [exact Hs|exact Hl].
Defined.

Lemma unregister_device_deletes_entry_witness :
  let out := run (unregister_device "lights" 0) world_lit [] in
  lookup_entry world_lit "lights" "1" = Live 0
  ∧ out_status out = Returned tt
  ∧ lookup_entry (out_world out) "lights" "1" = Absent.
Proof.
  cbv zeta.
  assert (entities world_lit !! 0 = Some bulb_handle) as Hobj
    by (vm_compute; reflexivity).
  assert ("lights" ≠ "") as Hd by discriminate.
  pose proof (unregister_device_deletes_entry world_lit "lights" 0
                bulb_handle [] Hobj Hd) as (Hs & _ & _ & _ & _ & Hl).
  split; [vm_compute; reflexivity|]. split.
  - rewrite Hs. vm_compute. reflexivity.
  - rewrite (Hl "lights" "1"). apply decide_True. by split.
Defined.

Lemma register_then_unregister_witness :
  lookup_entry world_awaiting "sensors" "5" = Placeholder
  ∧ lookup_entry
      (atomically (unregister_device "sensors" 0)
         (atomically (register_device "sensors" 0) world_awaiting))
      "sensors" "5" = Absent.
Proof.
  assert (entities world_awaiting !! 0 = Some magnet_handle) as Hobj
    by (vm_compute; reflexivity).
  assert ("sensors" ≠ "") as Hd by discriminate.
  assert (∀ h, lookup_entry world_awaiting "sensors"
                 (Entity.id magnet_handle) ≠ Live h) as Hfresh
    by (intros h Hh; vm_compute in Hh; discriminate).
  split; [vm_compute; reflexivity|].
  rewrite (proj2 (register_then_unregister world_awaiting "sensors" 0
                    magnet_handle Hobj Hd Hfresh) "sensors" "5").
  apply decide_True. by split.
Defined.

Lemma router_discards_malformed_frame_witness :
  ∃ warning : string,
    run (_ws_handle_message config0 (JObj {[ "id" := JStr "5" ]})) world0 []
    = mkOutcome [Log WARNING warning] world0 (Returned tt) []
    ∧ warning = "Message without dclass: %s".
Proof.
  destruct (router_discards_malformed_frame config0 {[ "id" := JStr "5" ]}
              world0 [] ltac:(left; vm_compute; reflexivity))
    as (warning & Hrun & Hwarning).
  exists warning. split; [exact Hrun|]. rewrite Hwarning.
  by apply decide_True.
Defined.

Lemma router_delivers_to_live_handle_witness :
  let message := changed "lights" "1" {[ "on" := JBool true ]} in
  lookup_entry world_lit "lights" "1" = Live 0
  ∧ run (_ws_handle_message config0 (JObj message)) world_lit []
    = observe [Log DEBUG "Finding device: [%s][%s]"]
        (run (try_except (handle_message 0 (JObj message)) router_except)
             world_lit []).
Proof.
  intros message.
  assert (lookup_entry world_lit "lights" "1" = Live 0) as Hlive
    by (vm_compute; reflexivity).
  split; [exact Hlive|].
  exact (router_delivers_to_live_handle config0 message "lights" "1" 0
           world_lit [] eq_refl eq_refl Hlive).
Defined.

Lemma router_failed_fetch_leaves_placeholder_witness :
  lookup_entry world0 "sensors" "5" = Absent
  ∧ run (_ws_handle_message config0
           (JObj (changed "sensors" "5" {[ "open" := JBool true ]})))
        world0 [quiet (Raises ClientError)]
    = mkOutcome
        [Log DEBUG "Finding device: [%s][%s]";
         Log DEBUG "Finding unknown device: [%s][%s]";
         Awaited (Action GET "http://bridge:80/api/KEY/sensors/5" None 10);
         Log ERROR "Error getting deCONZ data from %s.";
         Log ERROR "Handle message exception: %s"]
        (placeholder_stored "sensors" "5" world0) (Returned tt) [].
Proof.
  assert ("sensors" ≠ "") as Hd by discriminate.
  assert ("5" ≠ "") as Hi by discriminate.
  assert (lookup_entry world0 "sensors" "5" = Absent) as Habsent
    by reflexivity.
  split; [exact Habsent|].
  exact (proj1 (router_failed_fetch_leaves_placeholder config0 ∅
                  (changed "sensors" "5" {[ "open" := JBool true ]})
                  "sensors" "5" world0 (λ w, w) []
                  eq_refl eq_refl eq_refl Hd Hi Habsent)).
Defined.

Lemma discovery_returns_resolved_handle_witness :
  component config0 "sensors" magnet = inr (Some "binary_sensor")
  ∧ out_status
      (run (_find_unknown_device config0 "sensors" "5") world0
           (fetched magnet ++ [platform_sets_up "sensors" "5" magnet]))
    = Returned (Handle 0).
Proof.
  assert ("sensors" ≠ "") as Hd by discriminate.
  assert ("5" ≠ "") as Hi by discriminate.
  assert (component config0 "sensors" magnet = inr (Some "binary_sensor"))
    as Hcomp by (vm_compute; reflexivity).
  split; [exact Hcomp|].
  exact (proj1 (discovery_returns_resolved_handle config0 "sensors" "5"
                  "00:15:8d:00:01-01" magnet (Some "binary_sensor") 0 0
                  world0 (λ w, w) (λ w, w) (λ w, w)
                  (atomically (Entity_init "sensors" "5" magnet)) []
                  Hd Hi Hcomp eq_refl ltac:(vm_compute; reflexivity)
                  ltac:(vm_compute; reflexivity)
                  ltac:(vm_compute; reflexivity))).
Defined.

Lemma discovery_opens_at_most_one_slot_witness :
  let out := run (_find_unknown_device config0 "sensors" "5") world0
                 (fetched magnet) in
  _futures world0 !! "00:15:8d:00:01-01" = None
  ∧ waiting_for out = Some (WaitFor 0 10)
  ∧ futures (out_world out) = [Pending].
Proof.
  cbv zeta.
  assert ("sensors" ≠ "") as Hd by discriminate.
  assert ("5" ≠ "") as Hi by discriminate.
  pose proof (proj2 (discovery_opens_at_most_one_slot config0 "sensors" "5"
                       "00:15:8d:00:01-01" magnet (Some "binary_sensor")
                       world0 (λ w, w) (λ w, w) (λ w, w) Hd Hi
                       ltac:(vm_compute; reflexivity) eq_refl
                       ltac:(vm_compute; reflexivity))
                    ltac:(vm_compute; reflexivity))
    as (_ & Hwait & _ & Hf & _).
  split; [reflexivity|]. split; [exact Hwait|].
  unfold fetched, quiet. rewrite Hf. vm_compute. reflexivity.
Defined.


Lemma discovery_touches_one_entry_witness :
  lookup_entry world_lit "lights" "1" = Live 0
  ∧ lookup_entry
      (out_world (run (_find_unknown_device config0 "sensors" "7") world_lit
                      (fetched daylight)))
      "lights" "1" = Live 0.
Proof.
  assert (lookup_entry world_lit "lights" "1" = Live 0) as Hw
    by (vm_compute; reflexivity).
  assert (¬ ("lights" = "sensors" ∧ "1" = "7")) as Hother
    by (intros [? _]; discriminate).
  assert (others_keep (entry_is "lights" "1" (Live 0)) (fetched daylight))
    as Hothers by (repeat constructor; intros w Hw'; exact Hw').
  split; [exact Hw|].
  exact (discovery_touches_one_entry config0 "sensors" "7" "lights" "1"
           (Live 0) world_lit (fetched daylight) Hother Hw Hothers).
Defined.

Lemma live_entry_is_stable_witness :
  lookup_entry world_lit "lights" "1" = Live 0
  ∧ lookup_entry
      (out_world
         (run (_ws_handle_message config0
                 (JObj (changed "lights" "1" {[ "on" := JBool true ]})))
              world_lit []))
      "lights" "1" = Live 0.
Proof.
  assert (lookup_entry world_lit "lights" "1" = Live 0) as Hw
    by (vm_compute; reflexivity).
  assert (others_keep (entry_is "lights" "1" (Live 0)) []) as Hothers
    by constructor.
  split; [exact Hw|].
  exact (proj1 (live_entry_is_stable config0 "lights" "1" 0 1
                  (JObj (changed "lights" "1" {[ "on" := JBool true ]}))
                  world_lit [] Hw Hothers)).
Defined.

Lemma handle_message_stores_battery_witness :
  entities world_built_twice !! 0 = Some magnet_handle
  ∧ Entity._state
      <$> entities
            (out_world (run (handle_message 0 (JObj battery_report))
                            world_built_twice []))
          !! 0
    = Some (JObj {[ "open" := JBool false; "battery_level" := JNum 91 ]}).
Proof.
  assert (entities world_built_twice !! 0 = Some magnet_handle) as Hself
    by (vm_compute; reflexivity).
  split; [exact Hself|].
  rewrite (handle_message_stores_battery world_built_twice 0 magnet_handle
             {[ "open" := JBool false ]} battery_report
             {[ "battery" := JNum 91 ]} (JNum 91) []
             Hself eq_refl eq_refl eq_refl).
  vm_compute. reflexivity.
Defined.

Lemma handle_message_ignores_other_events_witness :
  run (handle_message 0
         (JObj {[ "r" := JStr "lights"; "id" := JStr "1";
                  "e" := JStr "added" ]}))
      world_lit []
  = mkOutcome [Log DEBUG "Default message handler."; ScheduleUpdate 0]
              world_lit (Returned tt) [].
Proof.
  apply handle_message_ignores_other_events. right. split; [reflexivity|].
  intros e He. vm_compute in He. injection He as <-. discriminate.
Defined.

Lemma handle_message_changed_without_state_witness :
  run (handle_message 0
         (JObj {[ "r" := JStr "lights"; "id" := JStr "1";
                  "e" := JStr "changed" ]}))
      world_lit []
  = mkOutcome [Log DEBUG "Default message handler.";
               Log DEBUG "Updating state."]
              world_lit (Raised KeyError) [].
Proof.
  exact (handle_message_changed_without_state world_lit 0
           {[ "r" := JStr "lights"; "id" := JStr "1";
              "e" := JStr "changed" ]} [] eq_refl eq_refl eq_refl).
Defined.


Lemma _req_propagates_other_exceptions_witness :
  run (get config0 "config") world0 [quiet (Raises CancelledError)]
  = mkOutcome [Awaited (Action GET "http://bridge:80/api/KEY/config" None 10)]
              world0 (Raised CancelledError) [].
Proof.
  exact (proj1 (_req_propagates_other_exceptions config0 GET "config" None
                  CancelledError world0 (λ w, w) (λ w, w) (λ w, w) []
                  ltac:(discriminate) ltac:(discriminate))).
Defined.

Lemma command_notifies_only_on_success_witness :
  entities world_lit !! 0 = Some bulb_handle
  ∧ run (_async_put_state config0 0 (JObj {[ "on" := JBool true ]}) "/state")
        world_lit [quiet (Raises ClientError)]
    = mkOutcome [Log DEBUG "Setting state: %s";
                 Awaited (Action PUT "http://bridge:80/api/KEY/lights/1/state"
                            (Some (JObj {[ "on" := JBool true ]})) 10);
                 Log ERROR "Error getting deCONZ data from %s."]
                world_lit (Returned tt) [].
Proof.
  assert (entities world_lit !! 0 = Some bulb_handle) as Hself
    by (vm_compute; reflexivity).
  split; [exact Hself|].
  exact (proj1 (proj2 (proj2
           (command_notifies_only_on_success config0 0 bulb_handle
              (JObj {[ "on" := JBool true ]}) JNull "/state" "" 404 world_lit
              (λ w, w) (λ w, w) (λ w, w) [] Hself ltac:(discriminate))))).
Defined.

Lemma listener_port_witness :
  waiting_for (run (_ws_listener config0 1) world0 config_fetched)
  = Some (Connect "bridge" (JNum 8080))
  ∧ waiting_for (run (_ws_listener config0 1) world0
                     [quiet (Raises ClientError)])
    = Some (Connect "bridge" (JNum 443)).
Proof.
  pose proof (listener_port config0 0 {[ "websocketport" := JNum 8080 ]}
                world0 (λ w, w) (λ w, w) (λ w, w) eq_refl eq_refl)
    as (Hfetched & Hfailed & _).
  split; [exact Hfetched|exact Hfailed].
Defined.

Lemma listener_dispatches_every_frame_witness :
  out_trace (run (recv_loop 3 0) world0
                 (frames [("[1]", JArr [JNum 1]); ("[2, 3]", JArr [JNum 2; JNum 3])]))
  = [Awaited (Recv 0 20); Log DEBUG "Got websocket message: %s";
     EnsureFuture (JArr [JNum 1]);
     Awaited (Recv 0 20); Log DEBUG "Got websocket message: %s";
     EnsureFuture (JArr [JNum 2; JNum 3])].
Proof.
  exact (proj1 (listener_dispatches_every_frame 3 0
                  [("[1]", JArr [JNum 1]); ("[2, 3]", JArr [JNum 2; JNum 3])]
                  world0 ltac:(cbn; lia) eq_refl)).
Defined.

Lemma listener_idle_steps_witness :
  run (recv_loop 1 0) world0
      [quiet (Raises TimeoutError); quiet Resumed; quiet Resumed]
  = observe [Awaited (Recv 0 20); Awaited (Ping 0); Awaited (WaitPong 10)]
            (run (recv_loop 0 0) world0 []).
Proof.
  exact (proj1 (proj2 (proj2 (proj2
           (listener_idle_steps 0 0 "[]" (JArr []) world0
              (λ w, w) (λ w, w) (λ w, w) [] ltac:(discriminate) eq_refl))))).
Defined.

Lemma listener_ends_when_killed_witness :
  run (connect_loop 2 "bridge" (JNum 8080) None) world0
      [quiet (Socket 0); killed; quiet Resumed]
  = mkOutcome [Awaited (Connect "bridge" (JNum 8080)); Awaited (Recv 0 20);
               Awaited (Close 0)]
              (dying world0) (Returned tt) [].
Proof.
  exact (proj1 (listener_ends_when_killed 0 "bridge" (JNum 8080) None 0
                  world0 (λ w, w) (λ w, w) (λ w, w) [] eq_refl)).
Defined.

Lemma listener_and_commands_write_nothing_witness :
  out_world (run (Light.async_turn_off config0 0) world_lit
                 (fetched (JArr [JNum 1])))
  = world_lit.
Proof.
  assert (others_keep (λ w, w = world_lit) (fetched (JArr [JNum 1])))
    as Hothers by (repeat constructor; intros w Hw; exact Hw).
  exact (proj2 (proj2 (proj2
           (listener_and_commands_write_nothing (λ w, w = world_lit) config0
              0 0 GET "config" "/state" None JNull world_lit
              (fetched (JArr [JNum 1])) eq_refl Hothers)))).
Defined.

